(** * uqcsbot / whatweekisit: calendar extraction and week resolution

    A shallow embedding of [src/uqcsbot/whatweekisit.py] and the properties
    its specification states about it.

    Conventions of the embedding:
    - a Python [str] is a list of Unicode code points ([N]);
    - a raised exception is the [Raise] branch of [result];
    - a [datetime] of this module always carries
      [ZoneInfo("Australia/Brisbane")]; Python compares and subtracts two
      datetimes with the same [tzinfo] on their wall-clock fields;
    - the document that [BeautifulSoup(markup, "html.parser")] builds is taken
      as a tree of tags and strings; the functions below are the queries the
      module runs on that tree. *)

From Stdlib Require Import ZArith NArith List Bool Lia String Ascii.
From Stdlib Require Import DecimalString.
Import ListNotations.

Open Scope Z_scope.

(** ** Python strings *)

Module Str.

Definition str := list N.

(** A literal made of ASCII characters. *)
Definition lit (s : string) : str :=
  map N_of_ascii (list_ascii_of_string s).

Definition eqb (a b : str) : bool :=
  if list_eq_dec N.eq_dec a b then true else false.

Fixpoint startswith (p s : str) : bool :=
  match p, s with
  | [], _ => true
  | _ :: _, [] => false
  | a :: p', b :: s' => N.eqb a b && startswith p' s'
  end.

(** [sub in s] *)
Fixpoint contains (sub s : str) : bool :=
  startswith sub s ||
  match s with
  | [] => false
  | _ :: s' => contains sub s'
  end.

(** [s.split(sep, 1)[0]] for a non-empty [sep]: the text before the first
    occurrence of [sep], the whole of [s] when there is none. *)
Fixpoint split_first (sep s : str) : str :=
  if startswith sep s then []
  else match s with
       | [] => []
       | c :: s' => c :: split_first sep s'
       end.

(** [s.replace(old, new)] where [old] and [new] are one character each. *)
Definition replace_char (old new : N) (s : str) : str :=
  map (fun c => if N.eqb c old then new else c) s.

(** [str.isspace] on one character: the code points Python counts as
    white space. *)
Definition isspace (c : N) : bool :=
  ((9 <=? c) && (c <=? 13) || (28 <=? c) && (c <=? 32)
   || (c =? 133) || (c =? 160) || (c =? 5760)
   || (8192 <=? c) && (c <=? 8202)
   || (c =? 8232) || (c =? 8233) || (c =? 8239) || (c =? 8287)
   || (c =? 12288))%N.

Fixpoint lstrip (s : str) : str :=
  match s with
  | [] => []
  | c :: s' => if isspace c then lstrip s' else s
  end.

Definition rstrip (s : str) : str := rev (lstrip (rev s)).

(** [s.strip()] *)
Definition strip (s : str) : str := rstrip (lstrip s).

End Str.

Import Str.

(** The constants of the module. *)
Definition NBSP : N := 160%N.
Definition SPACE : N := 32%N.

(** The separator of line 75: the three characters U+00E2 U+20AC U+201C, an
    en dash whose UTF-8 bytes were read as Windows-1252. *)
Definition DATE_SEPARATOR : str := [226; 8364; 8220]%N.

(** ** Exceptions *)

Inductive exn := ValueError | AttributeError | TypeError.

Inductive result (A : Type) :=
| Ok (a : A)
| Raise (e : exn).
Arguments Ok {A} a.
Arguments Raise {A} e.

Definition bind {A B} (r : result A) (k : A -> result B) : result B :=
  match r with
  | Ok a => k a
  | Raise e => Raise e
  end.

Notation "x <- r ;; k" := (bind r (fun x => k))
  (at level 61, r at next level, right associativity).

(** ** Dates and times *)

Module Datetime.

Inductive timezone := Australia_Brisbane.

(** The wall-clock fields of a [datetime]. *)
Record naive := mk_naive {
  year : Z; month : Z; day : Z;
  hour : Z; minute : Z; second : Z; microsecond : Z
}.

(** A [datetime] with its [tzinfo]. *)
Record datetime := mk_datetime {
  wall : naive;
  tzinfo : timezone
}.

Definition is_leap (y : Z) : bool :=
  (y mod 4 =? 0) && (negb (y mod 100 =? 0) || (y mod 400 =? 0)).

Definition days_before_year (y : Z) : Z :=
  let y1 := y - 1 in
  y1 * 365 + y1 / 4 - y1 / 100 + y1 / 400.

Definition DAYS_IN_MONTH : list Z :=
  [31; 28; 31; 30; 31; 30; 31; 31; 30; 31; 30; 31].

Definition DAYS_BEFORE_MONTH : list Z :=
  [0; 31; 59; 90; 120; 151; 181; 212; 243; 273; 304; 334].

Definition days_in_month (y m : Z) : Z :=
  if (m =? 2) && is_leap y then 29
  else nth (Z.to_nat (m - 1)) DAYS_IN_MONTH 0.

Definition days_before_month (y m : Z) : Z :=
  nth (Z.to_nat (m - 1)) DAYS_BEFORE_MONTH 0
  + (if (2 <? m) && is_leap y then 1 else 0).

Definition ymd2ord (y m d : Z) : Z :=
  days_before_year y + days_before_month y m + d.

Definition toordinal (n : naive) : Z :=
  ymd2ord (year n) (month n) (day n).

(** The dates the [datetime] constructor accepts. *)
Definition valid_date (y m d : Z) : bool :=
  (1 <=? y) && (y <=? 9999) && (1 <=? m) && (m <=? 12)
  && (1 <=? d) && (d <=? days_in_month y m).

Definition valid_time (h mi s us : Z) : bool :=
  (0 <=? h) && (h <? 24) && (0 <=? mi) && (mi <? 60)
  && (0 <=? s) && (s <? 60) && (0 <=? us) && (us <? 1000000).

Definition valid_naive (n : naive) : bool :=
  valid_date (year n) (month n) (day n)
  && valid_time (hour n) (minute n) (second n) (microsecond n).

Definition valid (d : datetime) : bool := valid_naive (wall d).

(** Lexicographic order on the fields, as the comparison of two tuples. *)
Fixpoint lex_le (a b : list Z) : bool :=
  match a, b with
  | x :: a', y :: b' => (x <? y) || ((x =? y) && lex_le a' b')
  | _, _ => true
  end.

Definition fields (n : naive) : list Z :=
  [year n; month n; day n; hour n; minute n; second n; microsecond n].

(** [a <= b] for two datetimes of the same [tzinfo]. *)
Definition le (a b : datetime) : bool :=
  lex_le (fields (wall a)) (fields (wall b)).

(** [timedelta], normalised as its constructor does. *)
Record timedelta := mk_timedelta {
  days : Z; seconds : Z; microseconds : Z
}.

Definition make_timedelta (d s us : Z) : timedelta :=
  let s1 := s + us / 1000000 in
  mk_timedelta (d + s1 / 86400) (s1 mod 86400) (us mod 1000000).

Definition seconds_of_day (n : naive) : Z :=
  second n + minute n * 60 + hour n * 3600.

(** [a - b] for two datetimes of the same [tzinfo]. *)
Definition sub (a b : datetime) : timedelta :=
  make_timedelta (toordinal (wall a) - toordinal (wall b))
                 (seconds_of_day (wall a) - seconds_of_day (wall b))
                 (microsecond (wall a) - microsecond (wall b)).

(** [weekday()]: Monday is 0. *)
Definition weekday (d : datetime) : Z :=
  (toordinal (wall d) + 6) mod 7.

Definition DAY_NAMES : list string :=
  ["Monday"; "Tuesday"; "Wednesday"; "Thursday"; "Friday"; "Saturday";
   "Sunday"]%string.

(** [strftime("%A")] in the English locale. *)
Definition strftime_A (d : datetime) : str :=
  lit (nth (Z.to_nat (weekday d)) DAY_NAMES EmptyString).

(** A date at midnight, as [strptime] returns for a format without time
    directives. *)
Definition midnight (y m d : Z) : naive := mk_naive y m d 0 0 0 0.

(** [n.replace(tzinfo=tz)] *)
Definition replace_tzinfo (n : naive) (tz : timezone) : datetime :=
  mk_datetime n tz.

End Datetime.

Import Datetime.

(** ** [strftime] and [strptime] for the formats of the module

    [strptime] turns its format into a regular expression, takes the first
    match at the start of the text in the order a backtracking matcher tries
    the alternatives, and raises [ValueError] when there is no match, when text
    remains after it, or when the fields are not a date.  A regular expression
    is embedded as the list of its matches in that order.  [\d] is a decimal
    digit of any script, as in Python; the letters of a month name are the
    ASCII ones, the only ones that pass both the expression and the look-up
    of the name. *)

Module Re.

Definition parser (A : Type) := str -> list (A * str).

Definition ret {A} (a : A) : parser A := fun s => [(a, s)].

Definition seq {A B} (p : parser A) (k : A -> parser B) : parser B :=
  fun s => flat_map (fun '(a, r) => k a r) (p s).

Definition alt {A} (p q : parser A) : parser A :=
  fun s => p s ++ q s.

Definition sat (f : N -> bool) : parser N :=
  fun s => match s with
           | c :: r => if f c then [(c, r)] else []
           | [] => []
           end.

Definition in_range (lo hi : N) (c : N) : bool :=
  ((lo <=? c) && (c <=? hi))%N.

Definition digit_value (c : N) : Z := Z.of_N c - 48.

(** One digit between the characters [lo] and [hi], as its value. *)
Definition digit_in (lo hi : N) : parser Z :=
  seq (sat (in_range lo hi)) (fun c => ret (digit_value c)).

Definition char (c : N) : parser unit :=
  seq (sat (N.eqb c)) (fun _ => ret tt).

(** [\s*], longest first. *)
Fixpoint ws_star (s : str) : list (unit * str) :=
  match s with
  | c :: r => if isspace c then ws_star r ++ [(tt, s)] else [(tt, s)]
  | [] => [(tt, [])]
  end.

(** [\s+], longest first. *)
Definition ws_plus : parser unit :=
  fun s => match s with
           | c :: r => if isspace c then ws_star r else []
           | [] => []
           end.

Definition lower (c : N) : N :=
  if ((65 <=? c) && (c <=? 90))%N then (c + 32)%N else c.

(** A lower-case literal under [IGNORECASE]. *)
Fixpoint literal_ci (l : str) : parser unit :=
  match l with
  | [] => ret tt
  | a :: l' => seq (sat (fun c => N.eqb (lower c) a)) (fun _ => literal_ci l')
  end.

(** The digit zero of every script; the nine code points after each are its
    digits 1 to 9 (the characters of category Nd of Unicode 14.0). *)
Definition DECIMAL_ZEROS : list N :=
  [48; 1632; 1776; 1984; 2406; 2534; 2662; 2790; 2918; 3046; 3174; 3302;
   3430; 3558; 3664; 3792; 3872; 4160; 4240; 6112; 6160; 6470; 6608; 6784;
   6800; 6992; 7088; 7232; 7248; 42528; 43216; 43264; 43472; 43504; 43600;
   44016; 65296; 66720; 68912; 69734; 69872; 69942; 70096; 70384; 70736;
   70864; 71248; 71360; 71472; 71904; 72016; 72784; 73040; 73120; 92768;
   92864; 93008; 120782; 120792; 120802; 120812; 120822; 123200; 123632;
   125264; 130032]%N.

(** The value of a decimal digit, as [int] reads it. *)
Definition decimal_value (c : N) : option Z :=
  match List.find (fun z => (z <=? c) && (c <=? z + 9))%N DECIMAL_ZEROS with
  | Some z => Some (Z.of_N (c - z))
  | None => None
  end.

(** [\d]: one decimal digit, as its value. *)
Definition decimal : parser Z :=
  fun s => match s with
           | c :: r =>
               match decimal_value c with
               | Some v => [(v, r)]
               | None => []
               end
           | [] => []
           end.

(** [%d]: [3[0-1]|[1-2]\d|0[1-9]|[1-9]| [1-9]] *)
Definition re_d : parser Z :=
  alt (seq (char 51) (fun _ => seq (digit_in 48 49) (fun b => ret (30 + b))))
 (alt (seq (digit_in 49 50) (fun a => seq decimal (fun b =>
         ret (10 * a + b))))
 (alt (seq (char 48) (fun _ => digit_in 49 57))
 (alt (digit_in 49 57)
      (seq (char 32) (fun _ => digit_in 49 57))))).

(** [%m]: [1[0-2]|0[1-9]|[1-9]] *)
Definition re_m : parser Z :=
  alt (seq (char 49) (fun _ => seq (digit_in 48 50) (fun b => ret (10 + b))))
 (alt (seq (char 48) (fun _ => digit_in 49 57))
      (digit_in 49 57)).

(** [%Y]: [\d\d\d\d] *)
Definition re_Y : parser Z :=
  seq decimal (fun a => seq decimal (fun b =>
  seq decimal (fun c => seq decimal (fun d =>
    ret (1000 * a + 100 * b + 10 * c + d))))).

Definition MONTH_ABBR : list string :=
  ["jan"; "feb"; "mar"; "apr"; "may"; "jun";
   "jul"; "aug"; "sep"; "oct"; "nov"; "dec"]%string.

Fixpoint one_of (names : list string) (i : Z) : parser Z :=
  match names with
  | [] => fun _ => []
  | n :: rest =>
      alt (seq (literal_ci (lit n)) (fun _ => ret i)) (one_of rest (i + 1))
  end.

(** [%b]: the abbreviated month names, as the month number. *)
Definition re_b : parser Z := one_of MONTH_ABBR 1.

End Re.

(** The fields [(year, month, day)] of the first match, checked as
    [strptime] does. *)
Definition strptime_finish (matches : list ((Z * Z * Z) * str))
  : result naive :=
  match matches with
  | [] => Raise ValueError
  | ((y, m, d), rest) :: _ =>
      match rest with
      | [] => if valid_date y m d then Ok (midnight y m d)
              else Raise ValueError
      | _ :: _ => Raise ValueError
      end
  end.

(** [datetime.strptime(s, "%d %b %Y")] *)
Definition strptime_d_b_Y (s : str) : result naive :=
  strptime_finish
    (Re.seq Re.re_d (fun d => Re.seq Re.ws_plus (fun _ =>
     Re.seq Re.re_b (fun m => Re.seq Re.ws_plus (fun _ =>
     Re.seq Re.re_Y (fun y => Re.ret (y, m, d)))))) s).

(** [datetime.strptime(s, "%d/%m/%Y")] *)
Definition strptime_d_m_Y (s : str) : result naive :=
  strptime_finish
    (Re.seq Re.re_d (fun d => Re.seq (Re.char 47) (fun _ =>
     Re.seq Re.re_m (fun m => Re.seq (Re.char 47) (fun _ =>
     Re.seq Re.re_Y (fun y => Re.ret (y, m, d)))))) s).

Definition digit_char (k : Z) : N := Z.to_N (48 + k).

(** [%d] and [%m]: two digits, zero-padded. *)
Definition pad2 (n : Z) : str := [digit_char (n / 10); digit_char (n mod 10)].

(** Four digits, zero-padded. *)
Definition pad4 (n : Z) : str :=
  [digit_char (n / 1000); digit_char (n / 100 mod 10);
   digit_char (n / 10 mod 10); digit_char (n mod 10)].

(** [%Y] as [strftime] writes it: the year as a decimal number, which the C
    library does not pad, so that a year below 1000 has fewer than four
    digits. *)
Definition year_digits (n : Z) : str :=
  if n <? 10 then [digit_char n]
  else if n <? 100 then pad2 n
  else if n <? 1000 then
    [digit_char (n / 100); digit_char (n / 10 mod 10); digit_char (n mod 10)]
  else pad4 n.

(** [d.strftime("%d/%m/%Y")] *)
Definition strftime_d_m_Y (d : datetime) : str :=
  pad2 (day (wall d)) ++ lit "/" ++ pad2 (month (wall d)) ++ lit "/"
  ++ year_digits (year (wall d)).

(** ** The module: formatting and parsing the command's dates *)

Definition date_to_string (date : datetime) : str := strftime_d_m_Y date.

Definition string_to_date (date : str) : result datetime :=
  n <- strptime_d_m_Y date ;;
  Ok (replace_tzinfo n Australia_Brisbane).

(** ** The parsed document *)

Module Soup.

(** A node of the tree: a string or a tag.  Of a tag's attributes the
    module reads only [class], which the HTML parser keeps as the list of
    its white-space separated values ([None] when the attribute is
    absent). *)
#[warnings="-register-all"] Inductive node :=
| NavigableString (s : str)
| Tag (name : str) (class_ : option (list str)) (contents : list node).

Definition tag_name (n : node) : option str :=
  match n with
  | NavigableString _ => None
  | Tag nm _ _ => Some nm
  end.

(** [el.get("class")] *)
Definition get_class (n : node) : option (list str) :=
  match n with
  | NavigableString _ => None
  | Tag _ c _ => c
  end.

Definition has_name (nm : str) (n : node) : bool :=
  match tag_name n with
  | Some x => Str.eqb x nm
  | None => false
  end.

(** [el.text], [el.get_text()]: the strings below [el], joined. *)
Fixpoint get_text (n : node) : str :=
  match n with
  | NavigableString s => s
  | Tag _ _ cs => flat_map get_text cs
  end.

(** A tag and the tags below it, in document order. *)
Fixpoint tags_of (n : node) : list node :=
  match n with
  | NavigableString _ => []
  | Tag _ _ cs => n :: flat_map tags_of cs
  end.

(** The tags below [n], in document order. *)
Definition descendants (n : node) : list node :=
  match n with
  | NavigableString _ => []
  | Tag _ _ cs => flat_map tags_of cs
  end.

(** [el.find_all(nm)] *)
Definition find_all (nm : str) (n : node) : list node :=
  filter (has_name nm) (descendants n).

(** [el.find(nm)] *)
Definition find (nm : str) (n : node) : option node :=
  hd_error (find_all nm n).

(** [class_=c] matches a tag one of whose class values is [c]. *)
Definition has_class (c : str) (n : node) : bool :=
  match get_class n with
  | Some cs => existsb (Str.eqb c) cs
  | None => false
  end.

(** [el.find(nm, class_=c)] *)
Definition find_class (nm c : str) (n : node) : option node :=
  hd_error (filter (fun x => has_name nm x && has_class c x) (descendants n)).

End Soup.

Import Soup.

(** ** The module: the calendar parser *)

Record Semester := mk_Semester {
  name : str;
  start_date : option datetime;
  end_date : option datetime
}.

Definition SEMESTER_1 : str := lit "Semester 1".
Definition SEMESTER_2 : str := lit "Semester 2".

(** The inner function [get_date] of line 74, with the [text] and the
    [year.text] it closes over. *)
Definition get_date (year_text text : str) : result datetime :=
  let date_str :=
    strip (replace_char NBSP SPACE (split_first DATE_SEPARATOR text)) in
  dt <- strptime_d_b_Y (date_str ++ lit " " ++ year_text) ;;
  Ok (replace_tzinfo dt Australia_Brisbane).

Definition is_start_line (text : str) : bool :=
  contains (lit "Classes start") text.

Definition is_end_line (semester_name text : str) : bool :=
  contains (semester_name ++ lit " classes end") text
  || contains (semester_name ++ lit " ends") text.

(** The body of the loop over the list items (lines 72 to 84). *)
Definition event_step (year_text semester_name : str) (semester : Semester)
    (text : str) : result Semester :=
  if is_start_line text then
    d <- get_date year_text text ;;
    Ok (mk_Semester (name semester) (Some d) (end_date semester))
  else if is_end_line semester_name text then
    d <- get_date year_text text ;;
    Ok (mk_Semester (name semester) (start_date semester) (Some d))
  else Ok semester.

Fixpoint events_loop (year_text semester_name : str) (semester : Semester)
    (events : list str) : result Semester :=
  match events with
  | [] => Ok semester
  | text :: rest =>
      semester' <- event_step year_text semester_name semester text ;;
      events_loop year_text semester_name semester' rest
  end.

Definition is_accordion_item (element : node) : bool :=
  has_name (lit "div") element
  && match get_class element with
     | Some [c] => Str.eqb c (lit "uq-accordion__item")
     | _ => false
     end.

Definition recognised (semester_name : str) : bool :=
  Str.eqb semester_name SEMESTER_1 || Str.eqb semester_name SEMESTER_2.

(** Lines 63 to 87: the [Semester] of a recognised block. *)
Definition block_semester (year_text semester_name : str) (element : node)
  : result Semester :=
  match find_class (lit "div") (lit "uq-accordion__content") element with
  | None => Raise AttributeError
  | Some semester_content =>
      events_loop year_text semester_name
        (mk_Semester semester_name None None)
        (map get_text (find_all (lit "li") semester_content))
  end.

(** The loop over [year.find_all_next()] (lines 53 to 88); [elements] is what
    remains of it. *)
Fixpoint year_loop (year_text : str) (elements : list node)
  : result (list Semester) :=
  match elements with
  | [] => Ok []
  | element :: rest =>
      if has_name (lit "h3") element then Ok []
      else if is_accordion_item element then
        match find (lit "h4") element with
        | None => Raise AttributeError
        | Some h4 =>
            let semester_name := get_text h4 in
            if negb (recognised semester_name) then Ok []
            else
              semester <- block_semester year_text semester_name element ;;
              more <- year_loop year_text rest ;;
              Ok (semester :: more)
        end
      else year_loop year_text rest
  end.

(** The loop over [soup.find_all("h3")] (line 52).  [elements] is a suffix of
    the tags of the document in document order: when its head is a year
    heading, [year.find_all_next()] is its tail. *)
Fixpoint years_loop (elements : list node) : result (list Semester) :=
  match elements with
  | [] => Ok []
  | element :: rest =>
      if has_name (lit "h3") element then
        semesters <- year_loop (get_text element) rest ;;
        more <- years_loop rest ;;
        Ok (semesters ++ more)
      else years_loop rest
  end.

(** [get_semester_times], on the tree built from the markup. *)
Definition get_semester_times (soup : node) : result (list Semester) :=
  years_loop (descendants soup).

(** ** The module: the week resolver *)

Fixpoint get_semester_week (semesters : list Semester)
    (checked_date : datetime) : result (option (str * Z * str)) :=
  match semesters with
  | [] => Ok None
  | semester :: rest =>
      match start_date semester with
      | None => Raise TypeError
      | Some start =>
          if le start checked_date then
            match end_date semester with
            | None => Raise TypeError
            | Some stop =>
                if le checked_date stop then
                  let days_since_start := days (sub checked_date start) in
                  let week_index := days_since_start / 7 + 1 in
                  let weekday := strftime_A checked_date in
                  Ok (Some (name semester, week_index, weekday))
                else get_semester_week rest checked_date
            end
          else get_semester_week rest checked_date
      end
  end.

Inductive Reason := OutOfSession | OutOfRange.

Inductive ResolutionResult :=
| Found (semester_name : str) (week_index : Z) (weekday : str)
| NotFound (reason : Reason).

(** [min] and [max] of a list of integers; both raise on an empty list. *)
Definition py_min (l : list Z) : result Z :=
  match l with
  | [] => Raise ValueError
  | x :: r => Ok (fold_left Z.min r x)
  end.

Definition py_max (l : list Z) : result Z :=
  match l with
  | [] => Raise ValueError
  | x :: r => Ok (fold_left Z.max r x)
  end.

(** Lines 152 to 164 of the command: the lookup, and the choice between the
    two replies when it finds nothing.  [OutOfSession] is the branch of
    "University isn't in session", [OutOfRange] that of "out of bounds". *)
Definition resolve (semesters : list Semester) (year_numbers : list Z)
    (check_date : datetime) : result ResolutionResult :=
  semester_tuple <- get_semester_week semesters check_date ;;
  match semester_tuple with
  | None =>
      lo <- py_min year_numbers ;;
      hi <- py_max year_numbers ;;
      if (lo <=? year (wall check_date)) && (year (wall check_date) <=? hi)
      then Ok (NotFound OutOfSession)
      else Ok (NotFound OutOfRange)
  | Some (semester_name, week_index, weekday) =>
      Ok (Found semester_name week_index weekday)
  end.

(** The reply of the two branches that find nothing (lines 155 to 162). *)
Definition not_found_message (r : Reason) (check_date : datetime) : str :=
  let date := date_to_string check_date in
  match r with
  | OutOfSession =>
      lit "University isn't in session on " ++ date ++ lit ", enjoy the break :)"
  | OutOfRange => lit "Sorry, " ++ date ++ lit " is currently out of bounds."
  end.

(** ** The module: the command

    The body of the coroutine [WhatWeekIsIt.whatweekisit] (lines 127 to 190),
    as a function of the argument of the command, the clock and the calendar
    page: its outcome is the content it hands to [edit_original_response], or
    the exception that leaves it.  [int] and [choice] are those of Python. *)

Definition DATE_FORMAT : str := lit "%d/%m/%Y".

Definition NEWLINE : N := 10%N.

(** The openings among which [choice] picks (lines 169 to 185). *)
Definition OPENINGS : list str :=
  [lit "The week we're in is:";
   lit "The current week is:";
   lit "Currently, the week is:";
   lit "Hey, look at the time:";
   lit "Can you believe that it's already:";
   lit "Time flies when you're having fun:";
   lit "Maybe time's just a construct of human perception:";
   lit "Time waits for noone:";
   lit "This week is:";
   lit "It is currently:";
   lit "The week is";
   lit "The week we're currently in is:";
   lit "Right now we are in:";
   lit "Good heavens, would you look at the time:";
   lit "What's the time, mister wolf? It's:"].

(** The strings below a tag, each stripped, the empty ones left out. *)
Fixpoint stripped_strings (n : node) : list str :=
  match n with
  | NavigableString s =>
      match strip s with
      | [] => []
      | t => [t]
      end
  | Tag _ _ cs => flat_map stripped_strings cs
  end.

(** [el.get_text(strip=True)] *)
Definition get_text_strip (n : node) : str :=
  List.concat (stripped_strings n).

(** [str(n)] for an integer. *)
Definition str_of_int (n : Z) : str :=
  lit (NilZero.string_of_int (Z.to_int n)).

(** What leaves the coroutine: an exception of the calls it makes, or the
    [UnboundLocalError] of reading [message] before any assignment. *)
Inductive raised :=
| Uncaught (e : exn)
| UnboundLocalError.

Inductive outcome :=
| Reply (content : str)
| Fails (e : raised).

(** Runs [r]; an exception leaves the coroutine. *)
Definition attempt {A} (r : result A) (k : A -> outcome) : outcome :=
  match r with
  | Ok a => k a
  | Raise e => Fails (Uncaught e)
  end.

Definition format_reply : str :=
  lit "Specified date should be in format `" ++ DATE_FORMAT ++ lit "`".

(** Lines 164 to 188, when the argument [date] was given. *)
Definition found_message (date opening semester_name : str) (week_index : Z)
    (weekday : str) : str :=
  let week_name := lit "Week " ++ str_of_int week_index in
  lit "The week of " ++ date ++ lit " is in:" ++ [NEWLINE] ++ lit "> "
  ++ opening
  ++ [NEWLINE] ++ lit "> " ++ weekday ++ lit ", " ++ week_name ++ lit " of "
  ++ semester_name.

Section Command.

(** [int] on a string, and [random.choice]. *)
Variable int : str -> result Z.
Variable choice : list str -> str.

(** [[int(year.get_text(strip=True)) for year in years]] *)
Fixpoint year_numbers_of (years : list node) : result (list Z) :=
  match years with
  | [] => Ok []
  | year :: rest =>
      n <- int (get_text_strip year) ;;
      more <- year_numbers_of rest ;;
      Ok (n :: more)
  end.

Definition whatweekisit (date : option str) (now : datetime)
    (calendar_page : node) : outcome :=
  match match date with
        | None => Ok now
        | Some s => string_to_date s
        end with
  | Raise ValueError => Reply format_reply
  | Raise e => Fails (Uncaught e)
  | Ok check_date =>
      attempt (get_semester_times calendar_page) (fun semesters =>
      attempt (get_semester_week semesters check_date) (fun semester_tuple =>
      match semester_tuple with
      | None =>
          let years := find_all (lit "h3") calendar_page in
          attempt (year_numbers_of years) (fun year_numbers =>
          attempt (py_min year_numbers) (fun lo =>
          attempt (py_max year_numbers) (fun hi =>
          if (lo <=? year (wall check_date)) && (year (wall check_date) <=? hi)
          then Reply (not_found_message OutOfSession check_date)
          else Reply (not_found_message OutOfRange check_date))))
      | Some (semester_name, week_index, weekday) =>
          match date with
          | Some given =>
              Reply (found_message given (choice OPENINGS) semester_name
                       week_index weekday)
          | None => Fails UnboundLocalError
          end
      end))
  end.

End Command.

(** [int] on a string of ASCII characters: white space around, a sign,
    digits, single underscores between digits. *)
Fixpoint int_digits (acc : Z) (after_digit : bool) (s : str) : result Z :=
  match s with
  | [] => if after_digit then Ok acc else Raise ValueError
  | c :: r =>
      if Re.in_range 48 57 c then
        int_digits (10 * acc + Re.digit_value c) true r
      else if (c =? 95)%N && after_digit then int_digits acc false r
      else Raise ValueError
  end.

Definition int_ascii (s : str) : result Z :=
  match strip s with
  | 43%N :: r => int_digits 0 false r
  | 45%N :: r => n <- int_digits 0 false r ;; Ok (- n)
  | t => int_digits 0 false t
  end.

(** [choice] that takes the [i]-th element. *)
Definition choice_nth (i : nat) (l : list str) : str := nth i l [].

(** ** Notions of the statements *)





(** Microseconds on the wall clock since the start of ordinal day 0. *)
Definition total_us (n : naive) : Z :=
  (toordinal n * 86400 + seconds_of_day n) * 1000000 + microsecond n.

(** Whole days from [a] to [b]. *)
Definition whole_days (a b : datetime) : Z :=
  (total_us (wall b) - total_us (wall a)) / 86400000000.

(** The first match of [p] on [s] is [a], with [r] left to read. *)
Definition first_match {A} (p : Re.parser A) (s : str) (a : A) (r : str)
  : Prop :=
  exists more, p s = (a, r) :: more.

(** Both dates of the record are present, as its declaration promises. *)
Definition has_dates (s : Semester) : bool :=
  match start_date s, end_date s with
  | Some _, Some _ => true
  | _, _ => false
  end.

(** [start_date <= d <= end_date] *)
Definition contains_date (d : datetime) (s : Semester) : bool :=
  match start_date s, end_date s with
  | Some a, Some b => le a d && le d b
  | _, _ => false
  end.

(** The dates of the record are dates of the calendar. *)
Definition valid_semester (s : Semester) : bool :=
  match start_date s with Some a => valid a | None => true end
  && match end_date s with Some b => valid b | None => true end.

(** The answer built from semester [s], whose classes start at [a]. *)
Definition found_in (s : Semester) (a d : datetime) : str * Z * str :=
  (name s, whole_days a d / 7 + 1, strftime_A d).

(** The date of the line can be read. *)
Definition date_ok (year_text text : str) : bool :=
  match get_date year_text text with
  | Ok _ => true
  | Raise _ => false
  end.

(** The line carries no marker, or its date can be read. *)
Definition line_ok (year_text semester_name text : str) : bool :=
  negb (is_start_line text || is_end_line semester_name text)
  || date_ok year_text text.

(** The line sets the end date: it carries an end marker and not the start
    marker. *)
Definition sets_end (semester_name text : str) : bool :=
  negb (is_start_line text) && is_end_line semester_name text.

(** The year section ends at the end of the document or at the next year
    heading. *)
Definition section_end (after : list node) : bool :=
  match after with
  | [] => true
  | h :: _ => has_name (lit "h3") h
  end.

(** ** A calendar page *)

Module Page.

Definition text (s : string) : node := NavigableString (lit s).

(** A list item "<date> <separator> <what>". *)
Definition item (date what : string) : node :=
  Tag (lit "li") None
    [NavigableString
       (lit date ++ [NBSP] ++ DATE_SEPARATOR ++ lit " " ++ lit what)].

Definition block (title : string) (items : list node) : node :=
  Tag (lit "div") (Some [lit "uq-accordion__item"])
    [Tag (lit "h4") None [text title];
     Tag (lit "div") (Some [lit "uq-accordion__content"])
       [Tag (lit "ul") None items]].

Definition heading (y : string) : node := Tag (lit "h3") None [text y].

Definition document (body : list node) : node :=
  Tag (lit "[document]") None body.

Definition calendar_2024 : node :=
  document
    [heading "2024";
     block "Semester 1"
       [item "19 Feb" "Orientation week";
        item "26 Feb" "Classes start";
        item "1 Jun" "Semester 1 classes end";
        item "22 Jun" "Semester 1 ends"];
     block "Semester 2"
       [item "22 Jul" "Classes start";
        item "16 Nov" "Semester 2 ends"];
     block "Summer Semester"
       [item "25 Nov" "Classes start"];
     heading "2025";
     block "Semester 1"
       [item "24 Feb" "Classes start";
        item "21 Jun" "Semester 1 ends"]].

Definition brisbane (y m d : Z) : datetime :=
  mk_datetime (midnight y m d) Australia_Brisbane.


(** A recognised block whose classes start after the semester ends. *)
Definition reversed : node :=
  document
    [heading "2024";
     block "Semester 1"
       [item "10 Jun" "Classes start"; item "1 Feb" "Semester 1 ends"]].

End Page.

(** ** Sample semesters and lines *)

Module Sample.

Definition semester_1_2024 : Semester :=
  mk_Semester SEMESTER_1 (Some (Page.brisbane 2024 2 26))
                         (Some (Page.brisbane 2024 6 2)).

Definition semester_2_2024 : Semester :=
  mk_Semester SEMESTER_2 (Some (Page.brisbane 2024 7 22))
                         (Some (Page.brisbane 2024 11 16)).

(** A list whose two entries overlap in June 2024. *)
Definition overlapping : list Semester :=
  [semester_2_2024;
   semester_1_2024;
   mk_Semester SEMESTER_2 (Some (Page.brisbane 2024 5 27))
                          (Some (Page.brisbane 2024 8 1))].

(** Three lines of one block. *)
Definition first_start : str :=
  get_text (Page.item "19 Feb" "Classes start for some courses").

Definition start_and_end : str :=
  get_text (Page.item "26 Feb" "Classes start, Semester 1 ends in June").

Definition last_end : str :=
  get_text (Page.item "22 Jun" "Semester 1 ends").

End Sample.

(** ** Further notions of the statements *)

(** The time of the day is 00:00:00. *)
Definition at_midnight (d : datetime) : bool :=
  (hour (wall d) =? 0) && (minute (wall d) =? 0)
  && (second (wall d) =? 0) && (microsecond (wall d) =? 0).

(** The dates the record holds. *)
Definition semester_dates (s : Semester) : list datetime :=
  match start_date s with Some a => [a] | None => [] end
  ++ match end_date s with Some b => [b] | None => [] end.

(** The line carries one of the markers. *)
Definition marked (semester_name text : str) : bool :=
  is_start_line text || is_end_line semester_name text.

(** The scan of a year passes over the element: it is neither a year heading
    nor an accordion item. *)
Definition passed_over (element : node) : bool :=
  negb (has_name (lit "h3") element) && negb (is_accordion_item element).

(** The two datetimes fall on the same day of the calendar. *)
Definition same_day (a b : datetime) : bool :=
  (year (wall a) =? year (wall b)) && (month (wall a) =? month (wall b))
  && (day (wall a) =? day (wall b)).

(** The replies of the command that name a week. *)
Definition names_a_week (content : str) : Prop :=
  exists given opening semester_name week_index weekday,
    content = found_message given opening semester_name week_index weekday.

(** Every match of [p] leaves an end of the text it was given. *)
Definition consumes {A} (p : Re.parser A) : Prop :=
  forall s a r, In (a, r) (p s) -> exists pre, s = pre ++ r.

(** A day or a month as one types it, without leading zero. *)
Definition unpadded (n : Z) : str :=
  if n <? 10 then [digit_char n] else pad2 n.

(** 26 February 2024, a Monday. *)
Definition A_MONDAY : datetime :=
  mk_datetime (midnight 2024 2 26) Australia_Brisbane.

Definition WEEKDAY_NAMES : list string :=
  ["Monday"; "Tuesday"; "Wednesday"; "Thursday"; "Friday"; "Saturday";
   "Sunday"]%string.

(** The full name of the weekday of [d]: the names follow one another day
    after day, from a known Monday. *)
Definition weekday_name (d : datetime) : str :=
  lit (nth (Z.to_nat (whole_days A_MONDAY d mod 7)) WEEKDAY_NAMES EmptyString).




(** * Properties *)

(** ** Runs of the module *)

Example monday_26_feb_2024 :
  strftime_A (replace_tzinfo (midnight 2024 2 26) Australia_Brisbane)
  = lit "Monday".
Proof. reflexivity. Qed.

Example string_to_date_ex :
  string_to_date (lit "26/02/2024")
  = Ok (mk_datetime (midnight 2024 2 26) Australia_Brisbane).
Proof. reflexivity. Qed.

Example string_to_date_short : string_to_date (lit "5/3/2024")
  = Ok (mk_datetime (midnight 2024 3 5) Australia_Brisbane).
Proof. reflexivity. Qed.

Example string_to_date_bad :
  string_to_date (lit "31/02/2024") = Raise ValueError.
Proof. reflexivity. Qed.

Example strptime_d_b_Y_ex :
  strptime_d_b_Y (lit "26 Feb 2024") = Ok (midnight 2024 2 26).
Proof. reflexivity. Qed.

Example date_to_string_ex :
  date_to_string (mk_datetime (midnight 2024 2 26) Australia_Brisbane)
  = lit "26/02/2024".
Proof. reflexivity. Qed.

Example calendar_2024_semesters :
  get_semester_times Page.calendar_2024
  = Ok [mk_Semester SEMESTER_1 (Some (Page.brisbane 2024 2 26))
                               (Some (Page.brisbane 2024 6 22));
        mk_Semester SEMESTER_2 (Some (Page.brisbane 2024 7 22))
                               (Some (Page.brisbane 2024 11 16));
        mk_Semester SEMESTER_1 (Some (Page.brisbane 2025 2 24))
                               (Some (Page.brisbane 2025 6 21))].
Proof. vm_compute. reflexivity. Qed.

Example first_day_is_week_1 :
  resolve [mk_Semester SEMESTER_1 (Some (Page.brisbane 2024 2 26))
                                  (Some (Page.brisbane 2024 6 2))]
          [2024] (Page.brisbane 2024 2 26)
  = Ok (Found SEMESTER_1 1 (lit "Monday")).
Proof. reflexivity. Qed.

Example eighth_day_is_week_2 :
  resolve [mk_Semester SEMESTER_1 (Some (Page.brisbane 2024 2 26))
                                  (Some (Page.brisbane 2024 6 2))]
          [2024] (Page.brisbane 2024 3 4)
  = Ok (Found SEMESTER_1 2 (lit "Monday")).
Proof. reflexivity. Qed.

Example year_2027_out_of_range :
  resolve [] [2020; 2021; 2022; 2023; 2024; 2025] (Page.brisbane 2027 1 1)
  = Ok (NotFound OutOfRange).
Proof. reflexivity. Qed.

(** ** Strings *)

Section StrFacts.

Lemma startswith_prefix (p s : str) :
  startswith p s = true <-> exists r, s = p ++ r.
Proof.
  revert s; induction p as [|a p IH]; intros s; simpl.
  - split; [intros _; now exists s | reflexivity].
  - destruct s as [|b s].
    + split; [discriminate | intros [r Hr]; discriminate].
    + rewrite andb_true_iff, N.eqb_eq, IH. split.
      * intros [-> [r ->]]. now exists r.
      * intros [r Hr]. injection Hr as -> ->.
        split; [reflexivity | now exists r].
Qed.

Lemma contains_infix (sub s : str) :
  contains sub s = true <-> exists l r, s = l ++ sub ++ r.
Proof.
  induction s as [|c s IH]; simpl.
  - rewrite orb_false_r, startswith_prefix. split.
    + intros [r Hr]. now exists [], r.
    + intros [l [r Hr]]. destruct l; [now exists r | discriminate].
  - rewrite orb_true_iff, startswith_prefix, IH. split.
    + intros [[r Hr] | [l [r Hr]]].
      * now exists [], r.
      * exists (c :: l), r. now rewrite Hr.
    + intros [l [r Hr]]. destruct l as [|x l].
      * left. now exists r.
      * right. injection Hr as _ ->. now exists l, r.
Qed.

Lemma contains_app_r (sub l s : str) :
  contains sub s = true -> contains sub (l ++ s) = true.
Proof.
  rewrite !contains_infix. intros [a [b ->]].
  exists (l ++ a), b. now rewrite <- app_assoc.
Qed.






End StrFacts.

(** ** Dates *)

Section DateFacts.

Lemma days_sub (a b : datetime) : days (sub b a) = whole_days a b.
Proof.
  unfold sub, make_timedelta, whole_days, total_us; simpl.
  set (o := toordinal (wall b) - toordinal (wall a)).
  set (s := seconds_of_day (wall b) - seconds_of_day (wall a)).
  set (u := microsecond (wall b) - microsecond (wall a)).
  replace ((toordinal (wall b) * 86400 + seconds_of_day (wall b)) * 1000000
           + microsecond (wall b)
           - ((toordinal (wall a) * 86400 + seconds_of_day (wall a)) * 1000000
              + microsecond (wall a)))
    with ((o * 86400 + s) * 1000000 + u) by (unfold o, s, u; ring).
  change 86400000000 with (1000000 * 86400).
  rewrite <- Z.div_div by lia.
  rewrite Z.div_add_l by lia.
  rewrite <- Z.add_assoc, Z.div_add_l by lia.
  reflexivity.
Qed.

Lemma lex_le_refl (l : list Z) : lex_le l l = true.
Proof.
  induction l as [|x l IH]; simpl; [reflexivity |].
  now rewrite Z.eqb_refl, IH, orb_true_r.
Qed.

Lemma lex_le_trans (a b c : list Z) :
  List.length a = List.length b -> List.length b = List.length c ->
  lex_le a b = true -> lex_le b c = true -> lex_le a c = true.
Proof.
  revert b c; induction a as [|x a IH]; intros [|y b] [|z c]; simpl;
    try discriminate; try reflexivity.
  intros Hab Hbc.
  rewrite !orb_true_iff, !andb_true_iff, !Z.ltb_lt, !Z.eqb_eq.
  intros [H1 | [H1 H1']] [H2 | [H2 H2']]; try (left; lia).
  right. split; [lia |]. apply (IH b c); congruence.
Qed.

Lemma le_refl (a : datetime) : le a a = true.
Proof. apply lex_le_refl. Qed.

Lemma le_trans (a b c : datetime) :
  le a b = true -> le b c = true -> le a c = true.
Proof. apply lex_le_trans; reflexivity. Qed.

Lemma days_before_year_succ (y : Z) :
  days_before_year (y + 1)
  = days_before_year y + 365 + (if is_leap y then 1 else 0).
Proof.
  unfold days_before_year, is_leap; cbv zeta.
  replace (y + 1 - 1) with y by ring.
  destruct (Z.eqb_spec (y mod 4) 0), (Z.eqb_spec (y mod 100) 0),
    (Z.eqb_spec (y mod 400) 0); simpl;
    Z.div_mod_to_equations; lia.
Qed.

Lemma days_before_year_mono (y k : Z) :
  0 <= k -> days_before_year y + 365 * k <= days_before_year (y + k).
Proof.
  intros Hk. pattern k. apply natlike_ind; [| | exact Hk]; cbv beta.
  - replace (y + 0) with y by ring. lia.
  - intros x Hx IH. replace (y + Z.succ x) with (y + x + 1) by ring.
    rewrite days_before_year_succ. destruct (is_leap (y + x)); lia.
Qed.

Lemma month_cases (m : Z) :
  1 <= m <= 12 ->
  m = 1 \/ m = 2 \/ m = 3 \/ m = 4 \/ m = 5 \/ m = 6 \/ m = 7 \/ m = 8
  \/ m = 9 \/ m = 10 \/ m = 11 \/ m = 12.
Proof. lia. Qed.

Ltac each_month H :=
  apply month_cases in H;
  repeat (destruct H as [H | H]); subst.

(** Looks the month tables up once the month is known, in a leap year and
    in a common one. *)
Ltac month_tables :=
  unfold days_before_month, days_in_month;
  destruct (is_leap _);
  repeat match goal with
    | |- context [nth ?a ?b ?c] =>
        let v := eval vm_compute in (nth a b c) in change (nth a b c) with v
    | |- context [if ?c then _ else _] =>
        let v := eval vm_compute in c in progress (change c with v)
    end;
  cbv iota.

Lemma valid_date_bounds (y m d : Z) :
  valid_date y m d = true ->
  1 <= y <= 9999 /\ 1 <= m <= 12 /\ 1 <= d <= days_in_month y m.
Proof.
  unfold valid_date. rewrite !andb_true_iff, !Z.leb_le. lia.
Qed.

(** The days of a year lie between the first of the year and the first of
    the next. *)
Lemma day_of_year_bounds (y m d : Z) :
  1 <= m <= 12 -> 1 <= d <= days_in_month y m ->
  1 <= days_before_month y m + d <= 365 + (if is_leap y then 1 else 0).
Proof.
  intros Hm Hd. revert Hd.
  each_month Hm; month_tables; lia.
Qed.

Lemma days_before_month_next (y m1 m2 d : Z) :
  1 <= m1 -> m1 < m2 -> m2 <= 12 -> d <= days_in_month y m1 ->
  days_before_month y m1 + d <= days_before_month y m2.
Proof.
  intros H1 H12 H2.
  assert (Hm1 : 1 <= m1 <= 12) by lia.
  assert (Hm2 : 1 <= m2 <= 12) by lia.
  each_month Hm1; each_month Hm2; try lia; month_tables; lia.
Qed.

Lemma ymd2ord_lt (y1 m1 d1 y2 m2 d2 : Z) :
  valid_date y1 m1 d1 = true -> valid_date y2 m2 d2 = true ->
  y1 < y2 \/ (y1 = y2 /\ (m1 < m2 \/ (m1 = m2 /\ d1 < d2))) ->
  ymd2ord y1 m1 d1 < ymd2ord y2 m2 d2.
Proof.
  intros V1 V2 H.
  apply valid_date_bounds in V1 as (Hy1 & Hm1 & Hd1).
  apply valid_date_bounds in V2 as (Hy2 & Hm2 & Hd2).
  unfold ymd2ord.
  pose proof (day_of_year_bounds y1 m1 d1 Hm1 Hd1) as B1.
  pose proof (day_of_year_bounds y2 m2 d2 Hm2 Hd2) as B2.
  destruct H as [Hy | [-> [Hm | [-> Hd]]]].
  - pose proof (days_before_year_succ y1) as S1.
    pose proof (days_before_year_mono (y1 + 1) (y2 - y1 - 1)) as M.
    replace (y1 + 1 + (y2 - y1 - 1)) with y2 in M by ring.
    destruct (is_leap y1); lia.
  - pose proof (days_before_month_next y2 m1 m2 d1). lia.
  - lia.
Qed.

Lemma valid_time_bounds (h mi s us : Z) :
  valid_time h mi s us = true ->
  0 <= h < 24 /\ 0 <= mi < 60 /\ 0 <= s < 60 /\ 0 <= us < 1000000.
Proof.
  unfold valid_time. rewrite !andb_true_iff, !Z.leb_le, !Z.ltb_lt. lia.
Qed.

(** On valid datetimes the order of the fields is the order of the
    instants. *)
Lemma le_total_us (a b : datetime) :
  valid a = true -> valid b = true -> le a b = true ->
  total_us (wall a) <= total_us (wall b).
Proof.
  destruct a as [[y1 m1 d1 h1 i1 s1 u1] tz1], b as [[y2 m2 d2 h2 i2 s2 u2] tz2].
  unfold valid, valid_naive, le, total_us, toordinal, seconds_of_day; simpl.
  rewrite !andb_true_iff. intros [Vd1 Vt1] [Vd2 Vt2].
  apply valid_time_bounds in Vt1, Vt2.
  repeat first [rewrite orb_true_iff | rewrite andb_true_iff
               | rewrite Z.ltb_lt | rewrite Z.eqb_eq].
  intros H.
  assert (D : ymd2ord y1 m1 d1 < ymd2ord y2 m2 d2
              \/ (ymd2ord y1 m1 d1 = ymd2ord y2 m2 d2
                  /\ (h1 < h2 \/ (h1 = h2 /\ (i1 < i2 \/ (i1 = i2 /\
                       (s1 < s2 \/ (s1 = s2 /\ u1 <= u2)))))))).
  { destruct H as [H | [-> [H | [-> [H | [-> H]]]]]].
    - left. apply ymd2ord_lt; auto.
    - left. apply ymd2ord_lt; auto.
    - left. apply ymd2ord_lt; auto.
    - right. split; [reflexivity |]. lia. }
  lia.
Qed.

Lemma whole_days_nonneg (a b : datetime) :
  valid a = true -> valid b = true -> le a b = true -> 0 <= whole_days a b.
Proof.
  intros Va Vb H. unfold whole_days.
  apply Z.div_pos; [| lia].
  pose proof (le_total_us a b Va Vb H). lia.
Qed.

End DateFacts.

(** ** Formatting and parsing a date *)

Section RoundTrip.

Lemma first_match_seq {A B} (p : Re.parser A) (k : A -> Re.parser B)
    s a r b r' :
  first_match p s a r -> first_match (k a) r b r' ->
  first_match (Re.seq p k) s b r'.
Proof.
  intros [m1 H1] [m2 H2]. unfold first_match, Re.seq.
  rewrite H1. simpl. rewrite H2. simpl. eauto.
Qed.

Lemma first_match_ret {A} (a : A) (s : str) : first_match (Re.ret a) s a s.
Proof. now exists []. Qed.

Lemma first_match_char (c : N) (s : str) :
  first_match (Re.char c) (c :: s) tt s.
Proof.
  exists []. unfold Re.char, Re.seq, Re.sat. now rewrite N.eqb_refl.
Qed.

Lemma digit_cases (k : Z) :
  0 <= k <= 9 ->
  k = 0 \/ k = 1 \/ k = 2 \/ k = 3 \/ k = 4 \/ k = 5 \/ k = 6 \/ k = 7
  \/ k = 8 \/ k = 9.
Proof. lia. Qed.

Lemma first_match_digit (k : Z) (s : str) :
  0 <= k <= 9 ->
  first_match Re.decimal (digit_char k :: s) k s.
Proof.
  intros H. exists []. apply digit_cases in H.
  repeat (destruct H as [H | H]); subst; reflexivity.
Qed.

Lemma first_match_year (y : Z) :
  0 <= y <= 9999 -> first_match Re.re_Y (pad4 y) y [].
Proof.
  intros Hy. unfold Re.re_Y, pad4.
  assert (Ha : 0 <= y / 1000 <= 9) by (Z.div_mod_to_equations; lia).
  assert (Hb : 0 <= y / 100 mod 10 <= 9) by (Z.div_mod_to_equations; lia).
  assert (Hc : 0 <= y / 10 mod 10 <= 9) by (Z.div_mod_to_equations; lia).
  assert (Hd : 0 <= y mod 10 <= 9) by (Z.div_mod_to_equations; lia).
  repeat (eapply first_match_seq; [now apply first_match_digit |]).
  replace (1000 * (y / 1000) + 100 * (y / 100 mod 10) + 10 * (y / 10 mod 10)
           + y mod 10) with y by (Z.div_mod_to_equations; lia).
  apply first_match_ret.
Qed.

Lemma day_cases (d : Z) :
  1 <= d <= 31 ->
  (d = 1 \/ d = 2 \/ d = 3 \/ d = 4 \/ d = 5 \/ d = 6 \/ d = 7 \/ d = 8)
  \/ (d = 9 \/ d = 10 \/ d = 11 \/ d = 12 \/ d = 13 \/ d = 14 \/ d = 15
      \/ d = 16)
  \/ (d = 17 \/ d = 18 \/ d = 19 \/ d = 20 \/ d = 21 \/ d = 22 \/ d = 23
      \/ d = 24)
  \/ (d = 25 \/ d = 26 \/ d = 27 \/ d = 28 \/ d = 29 \/ d = 30 \/ d = 31).
Proof. lia. Qed.

Lemma first_match_day (d : Z) (s : str) :
  1 <= d <= 31 -> first_match Re.re_d (pad2 d ++ s) d s.
Proof.
  intros H. apply day_cases in H. unfold first_match.
  repeat (destruct H as [H | H]); subst; eexists; reflexivity.
Qed.

Lemma first_match_month (m : Z) (s : str) :
  1 <= m <= 12 -> first_match Re.re_m (pad2 m ++ s) m s.
Proof.
  intros H. apply month_cases in H. unfold first_match.
  repeat (destruct H as [H | H]); subst; eexists; reflexivity.
Qed.

Lemma days_in_month_le_31 (y m : Z) : 1 <= m <= 12 -> days_in_month y m <= 31.
Proof.
  intros Hm. apply month_cases in Hm.
  repeat (destruct Hm as [Hm | Hm]); subst;
    unfold days_in_month; destruct (is_leap y); simpl; lia.
Qed.

Lemma strptime_strftime (y m d : Z) :
  valid_date y m d = true ->
  strptime_d_m_Y (pad2 d ++ lit "/" ++ pad2 m ++ lit "/" ++ pad4 y)
  = Ok (midnight y m d).
Proof.
  intros V. pose proof (valid_date_bounds _ _ _ V) as (Hy & Hm & Hd).
  pose proof (days_in_month_le_31 y m Hm) as H31.
  assert (F : first_match
                (Re.seq Re.re_d (fun d => Re.seq (Re.char 47) (fun _ =>
                 Re.seq Re.re_m (fun m => Re.seq (Re.char 47) (fun _ =>
                 Re.seq Re.re_Y (fun y => Re.ret (y, m, d)))))))
                (pad2 d ++ lit "/" ++ pad2 m ++ lit "/" ++ pad4 y)
                (y, m, d) []).
  { eapply first_match_seq; [apply first_match_day; lia |].
    eapply first_match_seq; [apply first_match_char |].
    eapply first_match_seq; [apply first_match_month; lia |].
    eapply first_match_seq; [apply first_match_char |].
    eapply first_match_seq; [apply first_match_year; lia |].
    apply first_match_ret. }
  destruct F as [more F]. unfold strptime_d_m_Y. rewrite F. simpl.
  now rewrite V.
Qed.

End RoundTrip.

Lemma year_digits_from_1000 (y : Z) : 1000 <= y -> year_digits y = pad4 y.
Proof.
  intros H. unfold year_digits.
  destruct (Z.ltb_spec y 10); [lia |].
  destruct (Z.ltb_spec y 100); [lia |].
  destruct (Z.ltb_spec y 1000); [lia | reflexivity].
Qed.

(** C8, as the code has it.  The year 999 is written with three digits, and
    the string is refused when it is read again. *)
Lemma C8_counterexample :
  valid (mk_datetime (midnight 999 1 1) Australia_Brisbane) = true
  /\ date_to_string (mk_datetime (midnight 999 1 1) Australia_Brisbane)
     = lit "01/01/999"
  /\ string_to_date
       (date_to_string (mk_datetime (midnight 999 1 1) Australia_Brisbane))
     = Raise ValueError.
Proof. repeat split. Qed.

(** C8, amended.  Round trip: for every valid date from the year 1000 on,
    [date_to_string] followed by [string_to_date] gives back the same day,
    month and year, at midnight in the Brisbane zone. *)
Theorem C8_date_round_trip (d : datetime) :
  valid d = true ->
  1000 <= year (wall d) ->
  exists d',
    string_to_date (date_to_string d) = Ok d'
    /\ day (wall d') = day (wall d)
    /\ month (wall d') = month (wall d)
    /\ year (wall d') = year (wall d)
    /\ d' = mk_datetime (midnight (year (wall d)) (month (wall d))
                                  (day (wall d))) Australia_Brisbane.
Proof.
  unfold valid, valid_naive. rewrite andb_true_iff. intros [V _] Hy.
  eexists. unfold string_to_date, date_to_string, strftime_d_m_Y.
  rewrite (year_digits_from_1000 _ Hy).
  rewrite (strptime_strftime _ _ _ V). simpl. repeat split.
Qed.

Lemma C8_date_round_trip_witness :
  valid (mk_datetime (mk_naive 2024 2 29 13 45 10 250) Australia_Brisbane) = true
  /\ 1000 <= 2024
  /\ exists d',
      string_to_date
        (date_to_string
           (mk_datetime (mk_naive 2024 2 29 13 45 10 250) Australia_Brisbane))
      = Ok d'
      /\ day (wall d') = 29 /\ month (wall d') = 2 /\ year (wall d') = 2024
      /\ d' = mk_datetime (midnight 2024 2 29) Australia_Brisbane.
Proof.
  split; [reflexivity |]. split; [lia |].
  apply (C8_date_round_trip
           (mk_datetime (mk_naive 2024 2 29 13 45 10 250) Australia_Brisbane));
    [reflexivity | simpl; lia].
Defined.

(** ** The week resolver *)

Section ResolverFacts.

Variable d : datetime.

Lemma get_semester_week_hit (s : Semester) (rest : list Semester) a :
  start_date s = Some a -> contains_date d s = true ->
  get_semester_week (s :: rest) d = Ok (Some (found_in s a d)).
Proof.
  unfold contains_date, found_in. intros Ha.
  cbn [get_semester_week]. rewrite Ha.
  destruct (end_date s) as [b|]; [| discriminate].
  rewrite andb_true_iff. intros [H1 H2]. now rewrite H1, H2, days_sub.
Qed.

Lemma get_semester_week_miss (s : Semester) (rest : list Semester) :
  has_dates s = true -> contains_date d s = false ->
  get_semester_week (s :: rest) d = get_semester_week rest d.
Proof.
  unfold has_dates, contains_date. cbn [get_semester_week].
  destruct (start_date s) as [a|]; [| discriminate].
  destruct (end_date s) as [b|]; [| discriminate].
  intros _ H. destruct (le a d); [| reflexivity].
  simpl in H. now rewrite H.
Qed.

Lemma get_semester_week_skip (pre rest : list Semester) :
  forallb has_dates pre = true ->
  forallb (fun x => negb (contains_date d x)) pre = true ->
  get_semester_week (pre ++ rest) d = get_semester_week rest d.
Proof.
  induction pre as [|s pre IH]; [reflexivity |].
  cbn [forallb app]. rewrite !andb_true_iff, negb_true_iff.
  intros [Hs Hpre] [Ns Npre].
  rewrite get_semester_week_miss by assumption. now apply IH.
Qed.

(** The first semester of the list that contains [d]. *)
Lemma first_containing (l : list Semester) (s : Semester) :
  In s l -> contains_date d s = true ->
  exists pre s1 post,
    l = pre ++ s1 :: post
    /\ forallb (fun x => negb (contains_date d x)) pre = true
    /\ contains_date d s1 = true
    /\ List.find (contains_date d) l = Some s1.
Proof.
  induction l as [|x l IH]; [contradiction |].
  intros Hin Hs. destruct (contains_date d x) eqn:E.
  - exists [], x, l. simpl. now rewrite E.
  - destruct Hin as [-> | Hin]; [congruence |].
    destruct (IH Hin Hs) as (pre & s1 & post & -> & Hpre & H1 & Hf).
    exists (x :: pre), s1, post. simpl. rewrite E, Hpre. now repeat split.
Qed.

Lemma get_semester_week_none (l : list Semester) :
  forallb has_dates l = true ->
  forallb (fun x => negb (contains_date d x)) l = true ->
  get_semester_week l d = Ok None.
Proof.
  intros H1 H2. rewrite <- (app_nil_r l).
  now rewrite get_semester_week_skip.
Qed.

(** What a successful lookup says about the list. *)
Lemma get_semester_week_some (l : list Semester) r :
  get_semester_week l d = Ok (Some r) ->
  exists s a, In s l /\ start_date s = Some a
              /\ contains_date d s = true /\ r = found_in s a d.
Proof.
  induction l as [|s l IH]; [discriminate |].
  cbn [get_semester_week].
  destruct (start_date s) as [a|] eqn:Ea; [| discriminate].
  destruct (le a d) eqn:L1.
  - destruct (end_date s) as [b|] eqn:Eb; [| discriminate].
    destruct (le d b) eqn:L2.
    + rewrite days_sub. fold (found_in s a d). intros H.
      assert (Hr : r = found_in s a d) by congruence.
      exists s, a. split; [now left |]. split; [exact Ea |].
      split; [| exact Hr].
      unfold contains_date. now rewrite Ea, Eb, L1, L2.
    + intros H. destruct (IH H) as (s' & a' & Hin & Hrest).
      exists s', a'. split; [now right | exact Hrest].
  - intros H. destruct (IH H) as (s' & a' & Hin & Hrest).
    exists s', a'. split; [now right | exact Hrest].
Qed.

Lemma resolve_found (l : list Semester) (years : list Z) s a :
  get_semester_week l d = Ok (Some (found_in s a d)) ->
  resolve l years d
  = Ok (Found (name s) (whole_days a d / 7 + 1) (strftime_A d)).
Proof. unfold resolve. now intros ->. Qed.

End ResolverFacts.

Section MinMax.

Lemma fold_min_spec (r : list Z) (x : Z) :
  In (fold_left Z.min r x) (x :: r)
  /\ forall y, In y (x :: r) -> fold_left Z.min r x <= y.
Proof.
  revert x; induction r as [|z r IH]; intros x; simpl.
  - split; [now left | intros y [-> | []]; lia].
  - destruct (IH (Z.min x z)) as [Hin Hle]. split.
    + destruct Hin as [H | H]; [| now right; right].
      rewrite <- H. destruct (Z.min_spec x z) as [[_ ->] | [_ ->]]; auto.
    + intros y Hy.
      assert (fold_left Z.min r (Z.min x z) <= Z.min x z)
        by (apply Hle; now left).
      destruct Hy as [<- | [<- | Hy]]; [lia | lia |].
      apply Hle. now right.
Qed.

Lemma fold_max_spec (r : list Z) (x : Z) :
  In (fold_left Z.max r x) (x :: r)
  /\ forall y, In y (x :: r) -> y <= fold_left Z.max r x.
Proof.
  revert x; induction r as [|z r IH]; intros x; simpl.
  - split; [now left | intros y [-> | []]; lia].
  - destruct (IH (Z.max x z)) as [Hin Hle]. split.
    + destruct Hin as [H | H]; [| now right; right].
      rewrite <- H. destruct (Z.max_spec x z) as [[_ ->] | [_ ->]]; auto.
    + intros y Hy.
      assert (Z.max x z <= fold_left Z.max r (Z.max x z))
        by (apply Hle; now left).
      destruct Hy as [<- | [<- | Hy]]; [lia | lia |].
      apply Hle. now right.
Qed.

Lemma py_min_least (l : list Z) (lo : Z) :
  In lo l -> (forall y, In y l -> lo <= y) -> py_min l = Ok lo.
Proof.
  destruct l as [|x r]; [contradiction |]. intros Hin Hle. simpl.
  destruct (fold_min_spec r x) as [Hm Hml].
  f_equal. apply Z.le_antisymm; auto.
Qed.

Lemma py_max_greatest (l : list Z) (hi : Z) :
  In hi l -> (forall y, In y l -> y <= hi) -> py_max l = Ok hi.
Proof.
  destruct l as [|x r]; [contradiction |]. intros Hin Hle. simpl.
  destruct (fold_max_spec r x) as [Hm Hml].
  f_equal. apply Z.le_antisymm; auto.
Qed.

End MinMax.

Lemma resolve_found_inv (l : list Semester) (years : list Z) (d : datetime)
    n w wd :
  resolve l years d = Ok (Found n w wd) ->
  get_semester_week l d = Ok (Some (n, w, wd)).
Proof.
  unfold resolve.
  destruct (get_semester_week l d) as [[[[n' w'] wd'] |] | e]; simpl.
  - intros H. injection H as -> -> ->. reflexivity.
  - destruct (py_min years); simpl; [| discriminate].
    destruct (py_max years); simpl; [| discriminate].
    destruct (_ && _); discriminate.
  - discriminate.
Qed.

Lemma contains_date_dates (d : datetime) (s : Semester) :
  contains_date d s = true ->
  exists a b, start_date s = Some a /\ end_date s = Some b
              /\ le a d = true /\ le d b = true.
Proof.
  unfold contains_date.
  destruct (start_date s) as [a|]; [| discriminate].
  destruct (end_date s) as [b|]; [| discriminate].
  rewrite andb_true_iff. intros [H1 H2]. now exists a, b.
Qed.

(** The name [strftime("%A")] gives is the name of the weekday. *)
Lemma strftime_A_weekday_name (d : datetime) :
  valid d = true -> strftime_A d = weekday_name d.
Proof.
  intros V. unfold valid, valid_naive in V.
  apply andb_true_iff in V as [_ Vt]. apply valid_time_bounds in Vt.
  assert (Hs : 0 <= seconds_of_day (wall d) < 86400)
    by (unfold seconds_of_day; lia).
  assert (Hu : 0 <= microsecond (wall d) < 1000000) by lia.
  unfold strftime_A, weekday_name, weekday.
  assert (W : whole_days A_MONDAY d = toordinal (wall d) - 738942).
  { unfold whole_days, total_us.
    change (toordinal (wall A_MONDAY)) with 738942.
    change (seconds_of_day (wall A_MONDAY)) with 0.
    change (microsecond (wall A_MONDAY)) with 0.
    replace ((toordinal (wall d) * 86400 + seconds_of_day (wall d)) * 1000000
             + microsecond (wall d) - ((738942 * 86400 + 0) * 1000000 + 0))
      with ((toordinal (wall d) - 738942) * 86400000000
            + (seconds_of_day (wall d) * 1000000 + microsecond (wall d)))
      by ring.
    rewrite Z.div_add_l by lia. rewrite Z.div_small by lia. ring. }
  rewrite W.
  replace (toordinal (wall d) + 6)
    with (toordinal (wall d) - 738942 + 105564 * 7) by ring.
  rewrite Z.mod_add by lia. reflexivity.
Qed.

(** C3.  When every semester of the list has its two dates and some semester
    contains the queried date [d], a date of the calendar, [resolve] returns
    [Found] for the first semester [s1] of the list that contains [d]
    (semester [s] itself when no other one contains [d]): the week index is
    the whole days from the start of [s1] to [d], divided by 7, plus 1, and
    the weekday is the full weekday name of [d].  On the first day of [s1]
    the week index is 1, seven days later it is 2. *)
Theorem C3_found_week_and_weekday
    (semesters : list Semester) (years : list Z) (d : datetime)
    (s : Semester) :
  valid d = true ->
  forallb has_dates semesters = true ->
  In s semesters -> contains_date d s = true ->
  exists s1 a1,
    List.find (contains_date d) semesters = Some s1
    /\ start_date s1 = Some a1
    /\ resolve semesters years d
       = Ok (Found (name s1) (whole_days a1 d / 7 + 1) (weekday_name d))
    /\ ((forall x, In x semesters -> contains_date d x = true -> x = s) ->
        s1 = s)
    /\ (d = a1 -> whole_days a1 d / 7 + 1 = 1)
    /\ (total_us (wall d) = total_us (wall a1) + 7 * 86400000000 ->
        whole_days a1 d / 7 + 1 = 2).
Proof.
  intros Vd Hd Hin Hc.
  destruct (first_containing d semesters s Hin Hc)
    as (pre & s1 & post & -> & Hpre & H1 & Hf).
  destruct (contains_date_dates d s1 H1) as (a1 & b1 & Ea & Eb & L1 & L2).
  rewrite forallb_app, andb_true_iff in Hd. destruct Hd as [Hd _].
  exists s1, a1. split; [exact Hf |]. split; [exact Ea |]. split.
  - rewrite <- (strftime_A_weekday_name d Vd).
    apply resolve_found. rewrite get_semester_week_skip by assumption.
    now apply get_semester_week_hit.
  - split; [| split].
    + intros Hu. apply Hu; [| exact H1]. apply in_or_app. right. now left.
    + intros ->. unfold whole_days. now rewrite Z.sub_diag.
    + intros Ht. unfold whole_days. rewrite Ht.
      replace (total_us (wall a1) + 7 * 86400000000 - total_us (wall a1))
        with (7 * 86400000000) by ring.
      reflexivity.
Qed.

Lemma C3_found_week_and_weekday_witness :
  resolve [Sample.semester_1_2024; Sample.semester_2_2024] [2024]
    (Page.brisbane 2024 3 5)
  = Ok (Found SEMESTER_1 2 (lit "Tuesday")).
Proof.
  destruct (C3_found_week_and_weekday
              [Sample.semester_1_2024; Sample.semester_2_2024] [2024]
              (Page.brisbane 2024 3 5) Sample.semester_1_2024
              eq_refl eq_refl (or_introl eq_refl) eq_refl)
    as (s1 & a1 & Hf & Ha & Hr & _).
  cbn in Hf. injection Hf as <-. cbn in Ha. injection Ha as <-.
  exact Hr.
Defined.

(** C4.  When every semester of the list has its two dates and none
    contains the queried date, [resolve] returns [NotFound]: with reason
    [OutOfSession] if the year of the date lies between the least and the
    greatest of the known years, with reason [OutOfRange] otherwise. *)
Theorem C4_not_found_reason
    (semesters : list Semester) (years : list Z) (d : datetime) (lo hi : Z) :
  forallb has_dates semesters = true ->
  forallb (fun s => negb (contains_date d s)) semesters = true ->
  In lo years -> (forall y, In y years -> lo <= y) ->
  In hi years -> (forall y, In y years -> y <= hi) ->
  resolve semesters years d
  = Ok (NotFound (if (lo <=? year (wall d)) && (year (wall d) <=? hi)
                  then OutOfSession else OutOfRange)).
Proof.
  intros Hd Hn Hlo Hmin Hhi Hmax. unfold resolve.
  rewrite get_semester_week_none by assumption. simpl.
  rewrite (py_min_least years lo), (py_max_greatest years hi) by assumption.
  simpl. now destruct (_ && _).
Qed.

Lemma C4_not_found_reason_witness :
  resolve [Sample.semester_1_2024; Sample.semester_2_2024]
          [2020; 2021; 2022; 2023; 2024; 2025] (Page.brisbane 2024 7 1)
  = Ok (NotFound OutOfSession)
  /\ resolve [Sample.semester_1_2024; Sample.semester_2_2024]
             [2020; 2021; 2022; 2023; 2024; 2025] (Page.brisbane 2027 3 1)
     = Ok (NotFound OutOfRange).
Proof.
  split.
  - apply (C4_not_found_reason
             [Sample.semester_1_2024; Sample.semester_2_2024]
             [2020; 2021; 2022; 2023; 2024; 2025] (Page.brisbane 2024 7 1)
             2020 2025); try reflexivity; simpl; intros; lia.
  - apply (C4_not_found_reason
             [Sample.semester_1_2024; Sample.semester_2_2024]
             [2020; 2021; 2022; 2023; 2024; 2025] (Page.brisbane 2027 3 1)
             2020 2025); try reflexivity; simpl; intros; lia.
Defined.

(** C7.  When two semesters of the list contain the queried date, and the
    semesters listed before the first of them have their dates and do not
    contain it, [resolve] returns the [Found] built from that first one,
    whatever follows it in the list. *)
Theorem C7_earliest_listed_match_wins
    (pre mid post : list Semester) (s1 s2 : Semester) (years : list Z)
    (d a1 : datetime) :
  forallb has_dates pre = true ->
  forallb (fun s => negb (contains_date d s)) pre = true ->
  contains_date d s1 = true -> contains_date d s2 = true ->
  start_date s1 = Some a1 ->
  resolve (pre ++ s1 :: mid ++ s2 :: post) years d
  = Ok (Found (name s1) (whole_days a1 d / 7 + 1) (strftime_A d)).
Proof.
  intros Hd Hn H1 _ Ea. apply resolve_found.
  rewrite get_semester_week_skip by assumption.
  now apply get_semester_week_hit.
Qed.

Lemma C7_earliest_listed_match_wins_witness :
  resolve Sample.overlapping [2024] (Page.brisbane 2024 5 28)
  = Ok (Found SEMESTER_1 14 (lit "Tuesday")).
Proof.
  apply (C7_earliest_listed_match_wins
           [Sample.semester_2_2024] [] []
           Sample.semester_1_2024
           (mk_Semester SEMESTER_2 (Some (Page.brisbane 2024 5 27))
                                   (Some (Page.brisbane 2024 8 1)))
           [2024] (Page.brisbane 2024 5 28) (Page.brisbane 2024 2 26));
    reflexivity.
Defined.

(** C9.  Whenever [resolve] returns [Found], for a date of the calendar and
    semesters whose dates are dates of the calendar, the week index is at
    least 1. *)
Theorem C9_week_index_at_least_1
    (semesters : list Semester) (years : list Z) (d : datetime)
    (n : str) (w : Z) (wd : str) :
  valid d = true -> forallb valid_semester semesters = true ->
  resolve semesters years d = Ok (Found n w wd) ->
  1 <= w.
Proof.
  intros Vd Vs H. apply resolve_found_inv in H.
  destruct (get_semester_week_some d semesters _ H)
    as (s & a & Hin & Ea & Hc & Hr).
  destruct (contains_date_dates d s Hc) as (a' & b & Ea' & _ & L1 & _).
  assert (a' = a) by congruence. subst a'.
  rewrite forallb_forall in Vs. specialize (Vs s Hin).
  unfold valid_semester in Vs. rewrite Ea, andb_true_iff in Vs.
  destruct Vs as [Va _].
  unfold found_in in Hr. injection Hr as _ -> _.
  pose proof (whole_days_nonneg a d Va Vd L1) as Hpos.
  assert (0 <= whole_days a d / 7) by (apply Z.div_pos; lia).
  lia.
Qed.

Lemma C9_week_index_at_least_1_witness :
  resolve Sample.overlapping [2024] (Page.brisbane 2024 5 28)
  = Ok (Found SEMESTER_1 14 (lit "Tuesday"))
  /\ 1 <= 14.
Proof.
  split; [reflexivity |].
  apply (C9_week_index_at_least_1
           Sample.overlapping [2024] (Page.brisbane 2024 5 28)
           SEMESTER_1 14 (lit "Tuesday")); reflexivity.
Defined.

(** ** The calendar parser *)

Section ParserFacts.

Variables year_text semester_name : str.

Lemma event_step_start (sem : Semester) (text : str) :
  is_start_line text = true ->
  event_step year_text semester_name sem text
  = d <- get_date year_text text ;;
    Ok (mk_Semester (name sem) (Some d) (end_date sem)).
Proof. unfold event_step. now intros ->. Qed.

Lemma event_step_end (sem : Semester) (text : str) :
  sets_end semester_name text = true ->
  event_step year_text semester_name sem text
  = d <- get_date year_text text ;;
    Ok (mk_Semester (name sem) (start_date sem) (Some d)).
Proof.
  unfold sets_end, event_step. rewrite andb_true_iff, negb_true_iff.
  now intros [-> ->].
Qed.

Lemma event_step_other (sem : Semester) (text : str) :
  is_start_line text = false -> sets_end semester_name text = false ->
  event_step year_text semester_name sem text = Ok sem.
Proof.
  unfold sets_end, event_step. intros ->. simpl. now intros ->.
Qed.

Lemma event_step_ok (sem : Semester) (text : str) :
  line_ok year_text semester_name text = true ->
  exists sem',
    event_step year_text semester_name sem text = Ok sem'
    /\ name sem' = name sem.
Proof.
  unfold line_ok, date_ok, event_step.
  destruct (is_start_line text); simpl.
  - destruct (get_date year_text text); [| discriminate]. simpl. eauto.
  - destruct (is_end_line semester_name text); simpl; [| eauto].
    destruct (get_date year_text text); [| discriminate]. simpl. eauto.
Qed.

Lemma events_loop_app (sem : Semester) (l1 l2 : list str) :
  events_loop year_text semester_name sem (l1 ++ l2)
  = sem' <- events_loop year_text semester_name sem l1 ;;
    events_loop year_text semester_name sem' l2.
Proof.
  revert sem; induction l1 as [|t l1 IH]; intros sem; simpl; [reflexivity |].
  destruct (event_step year_text semester_name sem t); simpl;
    [apply IH | reflexivity].
Qed.

Lemma events_loop_ok (sem : Semester) (events : list str) :
  forallb (line_ok year_text semester_name) events = true ->
  exists sem',
    events_loop year_text semester_name sem events = Ok sem'
    /\ name sem' = name sem.
Proof.
  revert sem; induction events as [|t events IH]; intros sem; simpl.
  - eauto.
  - rewrite andb_true_iff. intros [Ht Hev].
    destruct (event_step_ok sem t Ht) as [sem1 [-> Hn]]. simpl.
    destruct (IH sem1 Hev) as [sem' [-> Hn']]. exists sem'.
    split; congruence.
Qed.



Lemma events_loop_keeps_start (sem sem' : Semester) (events : list str) :
  forallb (fun t => negb (is_start_line t)) events = true ->
  events_loop year_text semester_name sem events = Ok sem' ->
  start_date sem' = start_date sem.
Proof.
  revert sem; induction events as [|t events IH]; intros sem; simpl.
  - intros _ H. now injection H as ->.
  - rewrite andb_true_iff, negb_true_iff. intros [Ht Hev].
    unfold event_step. rewrite Ht.
    destruct (is_end_line semester_name t); simpl.
    + destruct (get_date year_text t); simpl; [| discriminate].
      intros H. now apply IH in H.
    + now apply IH.
Qed.

Lemma events_loop_keeps_end (sem sem' : Semester) (events : list str) :
  forallb (fun t => negb (sets_end semester_name t)) events = true ->
  events_loop year_text semester_name sem events = Ok sem' ->
  end_date sem' = end_date sem.
Proof.
  revert sem; induction events as [|t events IH]; intros sem; simpl.
  - intros _ H. now injection H as ->.
  - rewrite andb_true_iff, negb_true_iff. intros [Ht Hev].
    unfold sets_end in Ht. unfold event_step.
    destruct (is_start_line t); simpl in *.
    + destruct (get_date year_text t); simpl; [| discriminate].
      intros H. now apply IH in H.
    + rewrite Ht. now apply IH.
Qed.

(** An accordion item is not a year heading. *)
Lemma accordion_item_not_h3 (element : node) :
  is_accordion_item element = true -> has_name (lit "h3") element = false.
Proof.
  unfold is_accordion_item, has_name. rewrite andb_true_iff. intros [H _].
  destruct (tag_name element) as [nm|]; [| reflexivity].
  unfold Str.eqb in *.
  destruct (list_eq_dec N.eq_dec nm (lit "div")); [| discriminate].
  subst nm. reflexivity.
Qed.

Lemma year_loop_h3 (l rest : list node) (h : node) :
  has_name (lit "h3") h = true ->
  year_loop year_text (l ++ h :: rest) = year_loop year_text l.
Proof.
  intros Hh. induction l as [|x l IH]; simpl.
  - now rewrite Hh.
  - destruct (has_name (lit "h3") x); [reflexivity |].
    destruct (is_accordion_item x); [| exact IH].
    destruct (Soup.find (lit "h4") x); [| reflexivity].
    destruct (negb (recognised (get_text n))); [reflexivity |].
    destruct (block_semester year_text (get_text n) x); simpl; [| reflexivity].
    now rewrite IH.
Qed.

Lemma year_loop_unrecognised (l rest : list node) (e h4 : node) :
  is_accordion_item e = true -> Soup.find (lit "h4") e = Some h4 ->
  recognised (get_text h4) = false ->
  year_loop year_text (l ++ e :: rest) = year_loop year_text l.
Proof.
  intros He Hh Hr. induction l as [|x l IH]; simpl.
  - now rewrite (accordion_item_not_h3 e He), He, Hh, Hr.
  - destruct (has_name (lit "h3") x); [reflexivity |].
    destruct (is_accordion_item x); [| exact IH].
    destruct (Soup.find (lit "h4") x); [| reflexivity].
    destruct (negb (recognised (get_text n))); [reflexivity |].
    destruct (block_semester year_text (get_text n) x); simpl; [| reflexivity].
    now rewrite IH.
Qed.

End ParserFacts.

Lemma years_loop_no_h3 (l rest : list node) :
  forallb (fun x => negb (has_name (lit "h3") x)) l = true ->
  years_loop (l ++ rest) = years_loop rest.
Proof.
  induction l as [|x l IH]; simpl; [reflexivity |].
  rewrite andb_true_iff, negb_true_iff. intros [-> Hl]. now apply IH.
Qed.

Lemma year_loop_section_end (year_text : str) (l after : list node) :
  section_end after = true ->
  year_loop year_text (l ++ after) = year_loop year_text l.
Proof.
  destruct after as [|h after]; simpl.
  - intros _. now rewrite app_nil_r.
  - intros Hh. now apply year_loop_h3.
Qed.




(** C2, as the code has it.  The parser does not compare the two dates of a
    block: classes that start on 10 June in a semester that ends on
    1 February are returned as they stand. *)
Lemma C2_counterexample :
  exists s a b,
    get_semester_times Page.reversed = Ok [s]
    /\ start_date s = Some a /\ end_date s = Some b
    /\ le a b = false.
Proof.
  exists (mk_Semester SEMESTER_1 (Some (Page.brisbane 2024 6 10))
                                 (Some (Page.brisbane 2024 2 1))),
         (Page.brisbane 2024 6 10), (Page.brisbane 2024 2 1).
  repeat split.
Qed.

(** C2, amended.  Every semester that [resolve] answers [Found] for has
    [start_date <= end_date]: it is a semester of the list, with both dates,
    that contains the queried date.  (A semester the parser returned with
    [start_date > end_date] contains no date, so it is never the answer.) *)
Theorem C2_found_semester_is_ordered
    (semesters : list Semester) (years : list Z) (d : datetime)
    (n : str) (w : Z) (wd : str) :
  resolve semesters years d = Ok (Found n w wd) ->
  exists s a b,
    In s semesters /\ name s = n
    /\ start_date s = Some a /\ end_date s = Some b
    /\ le a d = true /\ le d b = true /\ le a b = true.
Proof.
  intros H. apply resolve_found_inv in H.
  destruct (get_semester_week_some d semesters _ H)
    as (s & a & Hin & Ea & Hc & Hr).
  destruct (contains_date_dates d s Hc) as (a' & b & Ea' & Eb & L1 & L2).
  assert (a' = a) by congruence. subst a'.
  exists s, a, b. unfold found_in in Hr. injection Hr as -> _ _.
  repeat split; auto. exact (le_trans a d b L1 L2).
Qed.

Lemma C2_found_semester_is_ordered_witness :
  exists s a b,
    In s [Sample.semester_1_2024; Sample.semester_2_2024]
    /\ name s = SEMESTER_2
    /\ start_date s = Some a /\ end_date s = Some b
    /\ le a (Page.brisbane 2024 8 15) = true
    /\ le (Page.brisbane 2024 8 15) b = true /\ le a b = true.
Proof.
  exact (C2_found_semester_is_ordered
           [Sample.semester_1_2024; Sample.semester_2_2024] [2024]
           (Page.brisbane 2024 8 15) SEMESTER_2 4 (lit "Thursday") eq_refl).
Defined.

Example start_date_26_feb :
  event_step (lit "2024") SEMESTER_1 (mk_Semester SEMESTER_1 None None)
    (get_text (Page.item "26 Feb" "Classes start"))
  = Ok (mk_Semester SEMESTER_1 (Some (Page.brisbane 2024 2 26)) None).
Proof. reflexivity. Qed.

(** C6.  An accordion item whose title is neither "Semester 1" nor
    "Semester 2" ends the scan of its year: the year yields what the blocks
    before it yield, whatever follows; and the whole document parses as if
    that block and the rest of its year section were not there. *)
Theorem C6_other_title_ends_the_year (e h4 : node) :
  is_accordion_item e = true ->
  Soup.find (lit "h4") e = Some h4 ->
  recognised (get_text h4) = false ->
  (forall year_text before rest,
      year_loop year_text (before ++ e :: rest) = year_loop year_text before)
  /\ (forall front later after,
         forallb (fun x => negb (has_name (lit "h3") x)) later = true ->
         section_end after = true ->
         years_loop (front ++ e :: later ++ after)
         = years_loop (front ++ after)).
Proof.
  intros He Hh Hr. split.
  - intros year_text before rest.
    now apply (year_loop_unrecognised year_text before rest e h4).
  - intros front later after Hl Ha.
    induction front as [|x front IH]; cbn [app years_loop].
    + rewrite (accordion_item_not_h3 e He). now apply years_loop_no_h3.
    + destruct (has_name (lit "h3") x); [| exact IH].
      rewrite (year_loop_unrecognised _ front _ e h4 He Hh Hr).
      rewrite (year_loop_section_end _ front after Ha).
      now rewrite IH.
Qed.

Lemma C6_other_title_ends_the_year_witness :
  year_loop (lit "2024")
    ([Page.block "Semester 1" [Page.item "26 Feb" "Classes start"]]
     ++ Page.block "Summer Semester" [Page.item "25 Nov" "Classes start"]
     :: [Page.block "Semester 2" [Page.item "22 Jul" "Classes start"]])
  = year_loop (lit "2024")
      [Page.block "Semester 1" [Page.item "26 Feb" "Classes start"]]
  /\ years_loop
       ([Page.heading "2024"]
        ++ Page.block "Summer Semester" [Page.item "25 Nov" "Classes start"]
        :: [Page.block "Semester 2" [Page.item "22 Jul" "Classes start"]]
        ++ [Page.heading "2025"])
     = years_loop ([Page.heading "2024"] ++ [Page.heading "2025"]).
Proof.
  pose proof (C6_other_title_ends_the_year
                (Page.block "Summer Semester"
                   [Page.item "25 Nov" "Classes start"])
                (Tag (lit "h4") None [Page.text "Summer Semester"])
                eq_refl eq_refl eq_refl) as [Hyear Hdoc].
  split.
  - apply Hyear.
  - apply Hdoc; reflexivity.
Defined.

(** C10.  In a block whose marked lines all carry a readable date, the last
    line with the start marker gives the start date and the last line that
    sets the end date gives the end date; and a line with both the start
    marker and an end marker sets the start date only. *)
Theorem C10_last_matching_line_wins
    (year_text semester_name : str) (semester : Semester)
    (before after : list str) (text : str) (dt : datetime) :
  forallb (line_ok year_text semester_name) (before ++ text :: after) = true ->
  get_date year_text text = Ok dt ->
  exists sem,
    events_loop year_text semester_name semester (before ++ text :: after)
    = Ok sem
    /\ (is_start_line text = true ->
        forallb (fun t => negb (is_start_line t)) after = true ->
        start_date sem = Some dt)
    /\ (sets_end semester_name text = true ->
        forallb (fun t => negb (sets_end semester_name t)) after = true ->
        end_date sem = Some dt)
    /\ (is_start_line text = true -> is_end_line semester_name text = true ->
        event_step year_text semester_name semester text
        = Ok (mk_Semester (name semester) (Some dt) (end_date semester))).
Proof.
  intros Hok Hd.
  destruct (events_loop_ok year_text semester_name semester _ Hok)
    as [sem [Hl _]].
  exists sem. split; [exact Hl |].
  rewrite events_loop_app in Hl.
  destruct (events_loop year_text semester_name semester before) as [s0|];
    [| discriminate].
  cbn [bind events_loop] in Hl.
  split; [| split].
  - intros Hs Ha. rewrite event_step_start, Hd in Hl by exact Hs.
    cbn [bind] in Hl.
    now rewrite (events_loop_keeps_start _ _ _ _ _ Ha Hl).
  - intros He Ha. rewrite event_step_end, Hd in Hl by exact He.
    cbn [bind] in Hl.
    now rewrite (events_loop_keeps_end _ _ _ _ _ Ha Hl).
  - intros Hs _. rewrite event_step_start, Hd by exact Hs. reflexivity.
Qed.

Lemma C10_last_matching_line_wins_witness :
  exists sem,
    events_loop (lit "2024") SEMESTER_1 (mk_Semester SEMESTER_1 None None)
      (Sample.first_start :: Sample.start_and_end :: [Sample.last_end])
    = Ok sem
    /\ (is_start_line Sample.start_and_end = true ->
        forallb (fun t => negb (is_start_line t)) [Sample.last_end] = true ->
        start_date sem = Some (Page.brisbane 2024 2 26))
    /\ (sets_end SEMESTER_1 Sample.start_and_end = true ->
        forallb (fun t => negb (sets_end SEMESTER_1 t)) [Sample.last_end] = true ->
        end_date sem = Some (Page.brisbane 2024 2 26))
    /\ (is_start_line Sample.start_and_end = true ->
        is_end_line SEMESTER_1 Sample.start_and_end = true ->
        event_step (lit "2024") SEMESTER_1 (mk_Semester SEMESTER_1 None None)
          Sample.start_and_end
        = Ok (mk_Semester SEMESTER_1 (Some (Page.brisbane 2024 2 26)) None)).
Proof.
  exact (C10_last_matching_line_wins (lit "2024") SEMESTER_1
           (mk_Semester SEMESTER_1 None None)
           [Sample.first_start] [Sample.last_end] Sample.start_and_end
           (Page.brisbane 2024 2 26) eq_refl eq_refl).
Defined.

Example last_start_line_wins :
  events_loop (lit "2024") SEMESTER_1 (mk_Semester SEMESTER_1 None None)
    (Sample.first_start :: Sample.start_and_end :: [Sample.last_end])
  = Ok (mk_Semester SEMESTER_1 (Some (Page.brisbane 2024 2 26))
                               (Some (Page.brisbane 2024 6 22))).
Proof. reflexivity. Qed.

(** ** Runs of the command *)

Example command_finds_week_2 :
  whatweekisit int_ascii (choice_nth 8) (Some (lit "4/3/2024"))
    (Page.brisbane 2024 1 1) Page.calendar_2024
  = Reply (lit "The week of 4/3/2024 is in:" ++ [NEWLINE]
           ++ lit "> This week is:" ++ [NEWLINE]
           ++ lit "> Monday, Week 2 of Semester 1").
Proof. vm_compute. reflexivity. Qed.

Example command_in_the_break :
  whatweekisit int_ascii (choice_nth 0) (Some (lit "1/7/2024"))
    (Page.brisbane 2024 1 1) Page.calendar_2024
  = Reply (lit "University isn't in session on 01/07/2024, enjoy the break :)").
Proof. vm_compute. reflexivity. Qed.

Example command_without_date_in_semester :
  whatweekisit int_ascii (choice_nth 0) None
    (Page.brisbane 2024 3 4) Page.calendar_2024
  = Fails UnboundLocalError.
Proof. vm_compute. reflexivity. Qed.

(** ** More on formatting and parsing a date *)

Lemma strptime_finish_ok (l : list ((Z * Z * Z) * str)) (n : naive) :
  strptime_finish l = Ok n ->
  exists y m d more,
    l = ((y, m, d), []) :: more
    /\ valid_date y m d = true /\ n = midnight y m d.
Proof.
  destruct l as [|[[[y m] d] rest] more]; simpl; [discriminate |].
  destruct rest; [| discriminate].
  destruct (valid_date y m d) eqn:V; [| discriminate].
  intros H. injection H as <-. now exists y, m, d, more.
Qed.

Lemma strptime_finish_raises (l : list ((Z * Z * Z) * str)) (e : exn) :
  strptime_finish l = Raise e -> e = ValueError.
Proof.
  destruct l as [|[[[y m] d] rest] more]; simpl; [congruence |].
  destruct rest; [| congruence].
  destruct (valid_date y m d); congruence.
Qed.

Lemma valid_midnight (y m d : Z) :
  valid_date y m d = true ->
  valid (mk_datetime (midnight y m d) Australia_Brisbane) = true.
Proof. unfold valid, valid_naive. simpl. now intros ->. Qed.

Lemma string_to_date_ok (s : str) (d : datetime) :
  string_to_date s = Ok d ->
  exists y m dd,
    valid_date y m dd = true
    /\ d = mk_datetime (midnight y m dd) Australia_Brisbane.
Proof.
  unfold string_to_date, strptime_d_m_Y.
  destruct (strptime_finish _) as [n|] eqn:E; simpl; [| discriminate].
  intros H. injection H as <-.
  apply strptime_finish_ok in E as (y & m & dd & more & _ & V & ->).
  now exists y, m, dd.
Qed.

Lemma string_to_date_raises (s : str) (e : exn) :
  string_to_date s = Raise e -> e = ValueError.
Proof.
  unfold string_to_date, strptime_d_m_Y.
  destruct (strptime_finish _) as [n|] eqn:E; simpl; [discriminate |].
  intros H. injection H as <-. now apply strptime_finish_raises in E.
Qed.

Lemma first_match_year_then (y : Z) (r : str) :
  0 <= y <= 9999 -> first_match Re.re_Y (pad4 y ++ r) y r.
Proof.
  intros Hy. unfold Re.re_Y, pad4.
  assert (Ha : 0 <= y / 1000 <= 9) by (Z.div_mod_to_equations; lia).
  assert (Hb : 0 <= y / 100 mod 10 <= 9) by (Z.div_mod_to_equations; lia).
  assert (Hc : 0 <= y / 10 mod 10 <= 9) by (Z.div_mod_to_equations; lia).
  assert (Hd : 0 <= y mod 10 <= 9) by (Z.div_mod_to_equations; lia).
  cbn [app].
  repeat (eapply first_match_seq; [now apply first_match_digit |]).
  replace (1000 * (y / 1000) + 100 * (y / 100 mod 10) + 10 * (y / 10 mod 10)
           + y mod 10) with y by (Z.div_mod_to_equations; lia).
  apply first_match_ret.
Qed.

(** X1.  A date that [string_to_date] accepts is a date of the calendar, at
    midnight, in the Brisbane zone; and when its year is 1000 or later,
    writing it with [date_to_string] and reading it again gives the same
    datetime. *)
Theorem X1_string_to_date_normal_form (s : str) (d : datetime) :
  string_to_date s = Ok d ->
  valid d = true /\ at_midnight d = true
  /\ tzinfo d = Australia_Brisbane
  /\ (1000 <= year (wall d) -> string_to_date (date_to_string d) = Ok d).
Proof.
  intros H. apply string_to_date_ok in H as (y & m & dd & V & ->).
  split; [now apply valid_midnight |]. split; [reflexivity |].
  split; [reflexivity |].
  unfold string_to_date, date_to_string, strftime_d_m_Y.
  cbn [wall day month year midnight]. intros Hy.
  rewrite (year_digits_from_1000 _ Hy).
  now rewrite (strptime_strftime _ _ _ V).
Qed.

Lemma X1_string_to_date_normal_form_witness :
  valid (Page.brisbane 2024 3 5) = true
  /\ at_midnight (Page.brisbane 2024 3 5) = true
  /\ tzinfo (Page.brisbane 2024 3 5) = Australia_Brisbane
  /\ string_to_date (date_to_string (Page.brisbane 2024 3 5))
     = Ok (Page.brisbane 2024 3 5).
Proof.
  destruct (X1_string_to_date_normal_form (lit "5/3/2024")
              (Page.brisbane 2024 3 5) eq_refl) as (V & M & T & R).
  split; [exact V |]. split; [exact M |]. split; [exact T |].
  apply R. simpl. lia.
Defined.

(** X2.  Text after the year is refused: the string of a date of the year
    1000 or later, followed by anything at all, makes [string_to_date] raise
    [ValueError]. *)
Theorem X2_string_to_date_trailing_text (d : datetime) (extra : str) :
  valid d = true -> 1000 <= year (wall d) -> extra <> [] ->
  string_to_date (date_to_string d ++ extra) = Raise ValueError.
Proof.
  unfold valid, valid_naive. rewrite andb_true_iff. intros [V _] Hy1000 Hx.
  pose proof (valid_date_bounds _ _ _ V) as (Hy & Hm & Hd).
  pose proof (days_in_month_le_31 (year (wall d)) _ Hm) as H31.
  unfold string_to_date, date_to_string, strftime_d_m_Y, strptime_d_m_Y.
  rewrite (year_digits_from_1000 _ Hy1000).
  set (y := year (wall d)) in *. set (m := month (wall d)) in *.
  set (dd := day (wall d)) in *.
  assert (F : first_match
                (Re.seq Re.re_d (fun d => Re.seq (Re.char 47) (fun _ =>
                 Re.seq Re.re_m (fun m => Re.seq (Re.char 47) (fun _ =>
                 Re.seq Re.re_Y (fun y => Re.ret (y, m, d)))))))
                ((pad2 dd ++ lit "/" ++ pad2 m ++ lit "/" ++ pad4 y) ++ extra)
                (y, m, dd) extra).
  { repeat rewrite <- app_assoc.
    eapply first_match_seq; [apply first_match_day; lia |].
    eapply first_match_seq; [apply first_match_char |].
    eapply first_match_seq; [apply first_match_month; lia |].
    eapply first_match_seq; [apply first_match_char |].
    eapply first_match_seq; [apply first_match_year_then; lia |].
    apply first_match_ret. }
  destruct F as [more F]. rewrite F. simpl.
  destruct extra; [contradiction | reflexivity].
Qed.

Lemma X2_string_to_date_trailing_text_witness :
  string_to_date (date_to_string (Page.brisbane 2024 2 26) ++ lit " 10:30")
  = Raise ValueError.
Proof.
  apply (X2_string_to_date_trailing_text (Page.brisbane 2024 2 26)
           (lit " 10:30")); [reflexivity | simpl; lia | discriminate].
Defined.

(** ** More on the calendar parser *)

Lemma get_date_ok (year_text text : str) (d : datetime) :
  get_date year_text text = Ok d ->
  exists y m dd,
    valid_date y m dd = true
    /\ d = mk_datetime (midnight y m dd) Australia_Brisbane.
Proof.
  unfold get_date, strptime_d_b_Y.
  destruct (strptime_finish _) as [n|] eqn:E; simpl; [| discriminate].
  intros H. injection H as <-.
  apply strptime_finish_ok in E as (y & m & dd & more & _ & V & ->).
  now exists y, m, dd.
Qed.

Lemma get_date_raises (year_text text : str) (e : exn) :
  get_date year_text text = Raise e -> e = ValueError.
Proof.
  unfold get_date, strptime_d_b_Y.
  destruct (strptime_finish _) as [n|] eqn:E; simpl; [discriminate |].
  intros H. injection H as <-. now apply strptime_finish_raises in E.
Qed.

Lemma semester_dates_all (P : datetime -> Prop) (s : Semester) :
  Forall P (semester_dates s)
  <-> (forall a, start_date s = Some a -> P a)
      /\ (forall b, end_date s = Some b -> P b).
Proof.
  unfold semester_dates.
  destruct (start_date s) as [a|], (end_date s) as [b|]; simpl; split.
  - intros H. inversion H as [|? ? Ha H']; subst.
    inversion H' as [|? ? Hb _]; subst.
    split; intros ? [= <-]; assumption.
  - intros [Ha Hb]. repeat constructor; auto.
  - intros H. inversion H as [|? ? Ha _]; subst.
    split; [intros ? [= <-]; assumption | discriminate].
  - intros [Ha _]. repeat constructor; auto.
  - intros H. inversion H as [|? ? Hb _]; subst.
    split; [discriminate | intros ? [= <-]; assumption].
  - intros [_ Hb]. repeat constructor; auto.
  - intros _. split; discriminate.
  - intros _. constructor.
Qed.

Section ParserInvariants.

Variable year_text : str.

(** What holds of every date read under this year heading. *)
Variable P : datetime -> Prop.
Hypothesis get_date_P :
  forall text d, get_date year_text text = Ok d -> P d.

Lemma event_step_dates (semester_name : str) (sem sem' : Semester)
    (text : str) :
  Forall P (semester_dates sem) ->
  event_step year_text semester_name sem text = Ok sem' ->
  Forall P (semester_dates sem') /\ name sem' = name sem.
Proof.
  rewrite !semester_dates_all. intros [Hs He]. unfold event_step.
  destruct (is_start_line text).
  - destruct (get_date year_text text) as [d|] eqn:E; simpl; [| discriminate].
    intros H. injection H as <-. simpl. repeat split; auto.
    intros a [= <-]. eauto.
  - destruct (is_end_line semester_name text).
    + destruct (get_date year_text text) as [d|] eqn:E; simpl;
        [| discriminate].
      intros H. injection H as <-. simpl. repeat split; auto.
      intros b [= <-]. eauto.
    + intros H. injection H as <-. repeat split; auto.
Qed.

Lemma events_loop_dates (semester_name : str) (sem sem' : Semester)
    (events : list str) :
  Forall P (semester_dates sem) ->
  events_loop year_text semester_name sem events = Ok sem' ->
  Forall P (semester_dates sem') /\ name sem' = name sem.
Proof.
  revert sem; induction events as [|t events IH]; intros sem Hs; simpl.
  - intros H. injection H as <-. now split.
  - destruct (event_step year_text semester_name sem t) as [s1|] eqn:E;
      simpl; [| discriminate].
    destruct (event_step_dates _ _ _ _ Hs E) as [H1 N1].
    intros H. destruct (IH s1 H1 H) as [H2 N2]. split; congruence.
Qed.

Lemma block_semester_dates (semester_name : str) (element : node)
    (sem : Semester) :
  block_semester year_text semester_name element = Ok sem ->
  Forall P (semester_dates sem) /\ name sem = semester_name.
Proof.
  unfold block_semester.
  destruct (find_class _ _ element); [| discriminate].
  intros H. apply events_loop_dates in H; [exact H | constructor].
Qed.

Lemma year_loop_dates (elements : list node) (sems : list Semester) :
  year_loop year_text elements = Ok sems ->
  Forall (fun s => Forall P (semester_dates s)
                   /\ recognised (name s) = true) sems.
Proof.
  revert sems; induction elements as [|x elements IH]; intros sems; simpl.
  - intros H. injection H as <-. constructor.
  - destruct (has_name (lit "h3") x).
    { intros H. injection H as <-. constructor. }
    destruct (is_accordion_item x); [| apply IH].
    destruct (Soup.find (lit "h4") x) as [h4|]; [| discriminate].
    destruct (recognised (get_text h4)) eqn:R; simpl.
    + destruct (block_semester year_text (get_text h4) x) as [sem|] eqn:B;
        simpl; [| discriminate].
      destruct (year_loop year_text elements) as [more|]; simpl;
        [| discriminate].
      intros H. injection H as <-.
      destruct (block_semester_dates _ _ _ B) as [HP HN].
      constructor; [| now apply IH].
      split; [exact HP | now rewrite HN].
    + intros H. injection H as <-. constructor.
Qed.

End ParserInvariants.

Lemma years_loop_dates (P : datetime -> Prop) (elements : list node)
    (sems : list Semester) :
  (forall year_text text d, get_date year_text text = Ok d -> P d) ->
  years_loop elements = Ok sems ->
  Forall (fun s => Forall P (semester_dates s)
                   /\ recognised (name s) = true) sems.
Proof.
  intros HP. revert sems; induction elements as [|x elements IH];
    intros sems; simpl.
  - intros H. injection H as <-. constructor.
  - destruct (has_name (lit "h3") x); [| apply IH].
    destruct (year_loop (get_text x) elements) as [s1|] eqn:Y; simpl;
      [| discriminate].
    destruct (years_loop elements) as [s2|]; simpl; [| discriminate].
    intros H. injection H as <-. apply Forall_app. split.
    + apply (year_loop_dates (get_text x) P (HP (get_text x)) _ _ Y).
    + now apply IH.
Qed.

Lemma recognised_names (n : str) :
  recognised n = true -> n = SEMESTER_1 \/ n = SEMESTER_2.
Proof.
  unfold recognised, Str.eqb. rewrite orb_true_iff.
  destruct (list_eq_dec N.eq_dec n SEMESTER_1); [now left |].
  destruct (list_eq_dec N.eq_dec n SEMESTER_2); [now right |].
  intros [H | H]; discriminate.
Qed.

(** X3.  Every semester the parser returns is called "Semester 1" or
    "Semester 2". *)
Theorem X3_semesters_are_teaching_sessions
    (soup : node) (sems : list Semester) :
  get_semester_times soup = Ok sems ->
  Forall (fun s => name s = SEMESTER_1 \/ name s = SEMESTER_2) sems.
Proof.
  intros H. unfold get_semester_times in H.
  apply (years_loop_dates (fun _ => True)) in H; [| trivial].
  eapply Forall_impl; [| exact H].
  intros s [_ R]. now apply recognised_names.
Qed.

Lemma X3_semesters_are_teaching_sessions_witness :
  Forall (fun s => name s = SEMESTER_1 \/ name s = SEMESTER_2)
    [mk_Semester SEMESTER_1 (Some (Page.brisbane 2024 6 10))
                            (Some (Page.brisbane 2024 2 1))].
Proof.
  exact (X3_semesters_are_teaching_sessions Page.reversed _ eq_refl).
Defined.

(** X4.  Every date of every semester the parser returns is a date of the
    calendar, at midnight. *)
Theorem X4_parsed_dates_are_valid_midnights
    (soup : node) (sems : list Semester) :
  get_semester_times soup = Ok sems ->
  forallb valid_semester sems = true
  /\ Forall (fun s => Forall (fun d => at_midnight d = true)
                        (semester_dates s)) sems.
Proof.
  intros H. unfold get_semester_times in H.
  apply (years_loop_dates
           (fun d => valid d = true /\ at_midnight d = true)) in H.
  - split.
    + apply forallb_forall. intros s Hs.
      rewrite Forall_forall in H. destruct (H s Hs) as [Hd _].
      rewrite semester_dates_all in Hd. destruct Hd as [Ha Hb].
      unfold valid_semester.
      destruct (start_date s) as [a|], (end_date s) as [b|];
        rewrite ?andb_true_iff; repeat split;
        try (apply Ha; reflexivity); try (apply Hb; reflexivity).
    + eapply Forall_impl; [| exact H]. intros s [Hd _].
      eapply Forall_impl; [| exact Hd]. now intros d [_ M].
  - intros yt text d Hd.
    apply get_date_ok in Hd as (y & m & dd & V & ->).
    split; [now apply valid_midnight | reflexivity].
Qed.

Lemma X4_parsed_dates_are_valid_midnights_witness :
  forallb valid_semester
    [mk_Semester SEMESTER_1 (Some (Page.brisbane 2024 6 10))
                            (Some (Page.brisbane 2024 2 1))] = true
  /\ Forall (fun s => Forall (fun d => at_midnight d = true)
                        (semester_dates s))
       [mk_Semester SEMESTER_1 (Some (Page.brisbane 2024 6 10))
                               (Some (Page.brisbane 2024 2 1))].
Proof.
  exact (X4_parsed_dates_are_valid_midnights Page.reversed _ eq_refl).
Defined.

(** ** What a match has read *)

Section Matches.

Lemma in_seq {A B} (p : Re.parser A) (k : A -> Re.parser B) (s : str)
    (x : B * str) :
  In x (Re.seq p k s) <-> exists a r, In (a, r) (p s) /\ In x (k a r).
Proof.
  unfold Re.seq. rewrite in_flat_map. split.
  - intros [[a r] [H1 H2]]. now exists a, r.
  - intros [a [r [H1 H2]]]. now exists (a, r).
Qed.

Lemma sat_inv (f : N -> bool) (s : str) (c : N) (r : str) :
  In (c, r) (Re.sat f s) -> s = c :: r /\ f c = true.
Proof.
  unfold Re.sat. destruct s as [|x s]; [contradiction |].
  destruct (f x) eqn:E; [| contradiction].
  intros [H | []]. injection H as -> ->. now split.
Qed.

Lemma digit_in_inv (lo hi : N) (s : str) (v : Z) (r : str) :
  In (v, r) (Re.digit_in lo hi s) ->
  exists c, s = c :: r /\ Re.in_range lo hi c = true /\ v = Re.digit_value c.
Proof.
  unfold Re.digit_in. rewrite in_seq. intros [c [r' [H1 H2]]].
  apply sat_inv in H1 as [-> Hc]. destruct H2 as [H2 | []].
  injection H2 as <- <-. now exists c.
Qed.

Lemma decimal_inv (s : str) (v : Z) (r : str) :
  In (v, r) (Re.decimal s) ->
  exists c, s = c :: r /\ Re.decimal_value c = Some v.
Proof.
  unfold Re.decimal. destruct s as [|c s]; [contradiction |].
  destruct (Re.decimal_value c) as [w|] eqn:E; [| contradiction].
  intros [H | []]. injection H as <- <-. now exists c.
Qed.

Lemma re_Y_inv (s : str) (y : Z) (r : str) :
  In (y, r) (Re.re_Y s) ->
  exists a b c e va vb vc ve,
    s = [a; b; c; e] ++ r
    /\ Re.decimal_value a = Some va /\ Re.decimal_value b = Some vb
    /\ Re.decimal_value c = Some vc /\ Re.decimal_value e = Some ve
    /\ y = 1000 * va + 100 * vb + 10 * vc + ve.
Proof.
  unfold Re.re_Y. rewrite in_seq. intros (va & r1 & Ha & H).
  rewrite in_seq in H. destruct H as (vb & r2 & Hb & H).
  rewrite in_seq in H. destruct H as (vc & r3 & Hc & H).
  rewrite in_seq in H. destruct H as (ve & r4 & He & H).
  destruct H as [H | []]. injection H as <- <-.
  apply decimal_inv in Ha as (a & -> & Ha).
  apply decimal_inv in Hb as (b & -> & Hb).
  apply decimal_inv in Hc as (c & -> & Hc).
  apply decimal_inv in He as (e & -> & He).
  exists a, b, c, e, va, vb, vc, ve. repeat split; assumption.
Qed.

Lemma consumes_ret {A} (a : A) : consumes (Re.ret a).
Proof. intros s x r [H | []]. injection H as <- <-. now exists []. Qed.

Lemma consumes_sat (f : N -> bool) : consumes (Re.sat f).
Proof. intros s c r H. apply sat_inv in H as [-> _]. now exists [c]. Qed.

Lemma consumes_seq {A B} (p : Re.parser A) (k : A -> Re.parser B) :
  consumes p -> (forall a, consumes (k a)) -> consumes (Re.seq p k).
Proof.
  intros Hp Hk s b r H. apply in_seq in H as (a & r1 & H1 & H2).
  destruct (Hp _ _ _ H1) as [p1 ->]. destruct (Hk a _ _ _ H2) as [p2 ->].
  exists (p1 ++ p2). now rewrite app_assoc.
Qed.

Lemma consumes_alt {A} (p q : Re.parser A) :
  consumes p -> consumes q -> consumes (Re.alt p q).
Proof.
  intros Hp Hq s a r H. unfold Re.alt in H. apply in_app_or in H as [H | H];
    eauto.
Qed.

Lemma consumes_ws_star (s : str) (r : str) :
  In (tt, r) (Re.ws_star s) -> exists pre, s = pre ++ r.
Proof.
  induction s as [|c s IH]; simpl.
  - intros [H | []]. injection H as <-. now exists [].
  - destruct (isspace c).
    + intros H. apply in_app_or in H as [H | [H | []]].
      * destruct (IH H) as [pre ->]. now exists (c :: pre).
      * injection H as <-. now exists [].
    + intros [H | []]. injection H as <-. now exists [].
Qed.

Lemma consumes_ws_plus : consumes Re.ws_plus.
Proof.
  intros s [] r. unfold Re.ws_plus. destruct s as [|c s]; [contradiction |].
  destruct (isspace c); [| contradiction].
  intros H. apply consumes_ws_star in H as [pre ->]. now exists (c :: pre).
Qed.

Lemma consumes_literal_ci (l : str) : consumes (Re.literal_ci l).
Proof.
  induction l as [|a l IH]; simpl.
  - apply consumes_ret.
  - apply consumes_seq; [apply consumes_sat | intros _; exact IH].
Qed.

Lemma consumes_one_of (names : list string) (i : Z) :
  consumes (Re.one_of names i).
Proof.
  revert i; induction names as [|n names IH]; intros i; simpl.
  - intros s a r [].
  - apply consumes_alt; [| apply IH].
    apply consumes_seq; [apply consumes_literal_ci |].
    intros _. apply consumes_ret.
Qed.

Lemma consumes_digit_in (lo hi : N) : consumes (Re.digit_in lo hi).
Proof.
  apply consumes_seq; [apply consumes_sat | intros c; apply consumes_ret].
Qed.

Lemma consumes_decimal : consumes Re.decimal.
Proof.
  intros s v r H. apply decimal_inv in H as (c & -> & _). now exists [c].
Qed.

Lemma consumes_char (c : N) : consumes (Re.char c).
Proof.
  apply consumes_seq; [apply consumes_sat | intros x; apply consumes_ret].
Qed.

Lemma consumes_re_d : consumes Re.re_d.
Proof.
  unfold Re.re_d.
  repeat first [ apply consumes_char | apply consumes_digit_in
               | apply consumes_decimal
               | apply consumes_ret | apply consumes_alt
               | apply consumes_seq
               | match goal with |- forall _, _ => intro end ].
Qed.

Lemma same_length_suffix {A} (p1 p2 l1 l2 : list A) :
  p1 ++ l1 = p2 ++ l2 -> List.length l1 = List.length l2 -> l1 = l2.
Proof.
  revert p2; induction p1 as [|x p1 IH]; intros [|y p2] H L; simpl in H.
  - exact H.
  - exfalso. apply (f_equal (@List.length A)) in H.
    simpl in H. rewrite length_app in H. lia.
  - exfalso. apply (f_equal (@List.length A)) in H.
    simpl in H. rewrite length_app in H. lia.
  - injection H as _ H. now apply (IH p2).
Qed.

Lemma decimal_value_digit_char (k : Z) :
  0 <= k <= 9 -> Re.decimal_value (digit_char k) = Some k.
Proof.
  intros H. apply digit_cases in H.
  repeat (destruct H as [H | H]); subst; reflexivity.
Qed.

(** The year that ["%d %b %Y"] reads is written in the last four characters
    of the text. *)
Lemma strptime_d_b_Y_year (front : str) (y0 : Z) (n : naive) :
  0 <= y0 <= 9999 ->
  strptime_d_b_Y (front ++ pad4 y0) = Ok n -> year n = y0.
Proof.
  intros Hy H. unfold strptime_d_b_Y in H.
  apply strptime_finish_ok in H as (y & m & d & more & E & _ & ->).
  assert (I : In ((y, m, d), [])
                (Re.seq Re.re_d (fun d => Re.seq Re.ws_plus (fun _ =>
                 Re.seq Re.re_b (fun m => Re.seq Re.ws_plus (fun _ =>
                 Re.seq Re.re_Y (fun y => Re.ret (y, m, d))))))
                   (front ++ pad4 y0)))
    by (rewrite E; now left).
  apply in_seq in I as (d1 & r1 & I1 & I).
  apply in_seq in I as ([] & r2 & I2 & I).
  apply in_seq in I as (m1 & r3 & I3 & I).
  apply in_seq in I as ([] & r4 & I4 & I).
  apply in_seq in I as (y1 & r5 & I5 & I).
  destruct I as [I | []]. injection I as -> -> -> ->.
  apply consumes_re_d in I1 as [p1 E1].
  apply consumes_ws_plus in I2 as [p2 E2].
  apply (consumes_one_of Re.MONTH_ABBR 1) in I3 as [p3 E3].
  apply consumes_ws_plus in I4 as [p4 E4].
  apply re_Y_inv
    in I5 as (a & b & c & e & va & vb & vc & ve & E5 & Ha & Hb & Hc & He & ->).
  rewrite app_nil_r in E5. subst r4 r3 r2 r1.
  assert (T : [a; b; c; e] = pad4 y0).
  { symmetry.
    apply (same_length_suffix front (p1 ++ p2 ++ p3 ++ p4));
      [| reflexivity].
    rewrite E1. now rewrite <- !app_assoc. }
  unfold pad4 in T. injection T as -> -> -> ->. clear E E1.
  rewrite decimal_value_digit_char in Ha, Hb, Hc, He
    by (Z.div_mod_to_equations; lia).
  injection Ha as <-. injection Hb as <-. injection Hc as <-.
  injection He as <-.
  unfold midnight. cbn [year]. Z.div_mod_to_equations; lia.
Qed.

End Matches.

(** X5.  Under a year heading whose text is the four digits of [y], every
    date of every semester of that year lies in year [y]. *)
Theorem X5_dates_lie_in_the_year_of_the_heading
    (y : Z) (elements : list node) (sems : list Semester) :
  0 <= y <= 9999 ->
  year_loop (pad4 y) elements = Ok sems ->
  Forall (fun s => Forall (fun d => year (wall d) = y) (semester_dates s))
         sems.
Proof.
  intros Hy H.
  apply (year_loop_dates (pad4 y) (fun d => year (wall d) = y)) in H.
  - eapply Forall_impl; [| exact H]. now intros s [Hd _].
  - intros text d Hd. unfold get_date in Hd.
    destruct (strptime_d_b_Y _) as [n|] eqn:E; simpl in Hd; [| discriminate].
    injection Hd as <-. simpl.
    rewrite app_assoc in E. exact (strptime_d_b_Y_year _ _ _ Hy E).
Qed.

Lemma X5_dates_lie_in_the_year_of_the_heading_witness :
  Forall (fun s => Forall (fun d => year (wall d) = 2024) (semester_dates s))
    [mk_Semester SEMESTER_1 (Some (Page.brisbane 2024 2 26)) None].
Proof.
  apply (X5_dates_lie_in_the_year_of_the_heading 2024
           [Page.block "Semester 1" [Page.item "26 Feb" "Classes start"]]
           [mk_Semester SEMESTER_1 (Some (Page.brisbane 2024 2 26)) None]);
    [lia | reflexivity].
Defined.

(** ** More on the scan of the document *)

Lemma filter_nil_forallb {A} (f : A -> bool) (l : list A) :
  filter f l = [] -> forallb (fun x => negb (f x)) l = true.
Proof.
  induction l as [|x l IH]; simpl; [reflexivity |].
  destruct (f x); [discriminate |]. exact IH.
Qed.

(** X6.  A page without year heading has no semester: the parser returns
    the empty list, whatever else the page holds. *)
Theorem X6_no_year_heading_no_semester (soup : node) :
  find_all (lit "h3") soup = [] -> get_semester_times soup = Ok [].
Proof.
  unfold find_all, get_semester_times. intros H.
  apply filter_nil_forallb in H.
  rewrite <- (app_nil_r (descendants soup)).
  now rewrite years_loop_no_h3.
Qed.

Lemma X6_no_year_heading_no_semester_witness :
  get_semester_times
    (Page.document
       [Page.block "Semester 1" [Page.item "26 Feb" "Classes start"]])
  = Ok [].
Proof.
  apply (X6_no_year_heading_no_semester
           (Page.document
              [Page.block "Semester 1" [Page.item "26 Feb" "Classes start"]])).
  reflexivity.
Defined.

Lemma event_step_unmarked (year_text semester_name : str) (sem : Semester)
    (text : str) :
  marked semester_name text = false ->
  event_step year_text semester_name sem text = Ok sem.
Proof.
  unfold marked, event_step. rewrite orb_false_iff. now intros [-> ->].
Qed.

(** X7.  The list items that carry no marker play no part: a block gives the
    same record, or the same exception, as the block reduced to its marked
    lines. *)
Theorem X7_unmarked_lines_are_ignored
    (year_text semester_name : str) (sem : Semester) (events : list str) :
  events_loop year_text semester_name sem events
  = events_loop year_text semester_name sem
      (filter (marked semester_name) events).
Proof.
  revert sem; induction events as [|t events IH]; intros sem; simpl;
    [reflexivity |].
  destruct (marked semester_name t) eqn:M; simpl.
  - destruct (event_step year_text semester_name sem t); simpl;
      [apply IH | reflexivity].
  - rewrite event_step_unmarked by exact M. simpl. apply IH.
Qed.

(** X8.  One unreadable date stops everything: when the lines before it are
    in order, a marked line whose date cannot be read makes the loop over the
    list items raise [ValueError], and no record comes out of the block. *)
Theorem X8_unreadable_date_raises
    (year_text semester_name : str) (sem : Semester)
    (before after : list str) (text : str) :
  forallb (line_ok year_text semester_name) before = true ->
  marked semester_name text = true ->
  date_ok year_text text = false ->
  events_loop year_text semester_name sem (before ++ text :: after)
  = Raise ValueError.
Proof.
  intros Hb Hm Hd. rewrite events_loop_app.
  destruct (events_loop_ok year_text semester_name sem before Hb)
    as [s0 [-> _]].
  cbn [bind events_loop]. unfold date_ok in Hd. unfold marked in Hm.
  unfold event_step.
  destruct (get_date year_text text) as [d|e] eqn:E; [discriminate |].
  apply get_date_raises in E. subst e.
  destruct (is_start_line text); [reflexivity |].
  simpl in Hm. now rewrite Hm.
Qed.

Lemma X8_unreadable_date_raises_witness :
  events_loop (lit "2024") SEMESTER_1 (mk_Semester SEMESTER_1 None None)
    ([Sample.first_start]
     ++ get_text (Page.item "30 Feb" "Semester 1 ends") :: [Sample.last_end])
  = Raise ValueError.
Proof.
  apply (X8_unreadable_date_raises (lit "2024") SEMESTER_1
           (mk_Semester SEMESTER_1 None None) [Sample.first_start]
           [Sample.last_end]
           (get_text (Page.item "30 Feb" "Semester 1 ends")));
    reflexivity.
Defined.

Lemma year_loop_passed_over (year_text : str) (l rest : list node) :
  forallb passed_over l = true ->
  year_loop year_text (l ++ rest) = year_loop year_text rest.
Proof.
  induction l as [|x l IH]; simpl; [reflexivity |].
  unfold passed_over at 1.
  rewrite !andb_true_iff, !negb_true_iff. intros [[-> ->] Hl].
  now apply IH.
Qed.

(** X9.  An accordion item without [h4] title, or a recognised one without
    content block, makes the scan of its year raise [AttributeError] as soon
    as it is reached. *)
Theorem X9_malformed_block_raises
    (year_text : str) (skipped rest : list node) (e : node) :
  forallb passed_over skipped = true ->
  is_accordion_item e = true ->
  Soup.find (lit "h4") e = None
  \/ (exists h4,
         Soup.find (lit "h4") e = Some h4
         /\ recognised (get_text h4) = true
         /\ find_class (lit "div") (lit "uq-accordion__content") e = None) ->
  year_loop year_text (skipped ++ e :: rest) = Raise AttributeError.
Proof.
  intros Hs He H. rewrite year_loop_passed_over by exact Hs.
  cbn [year_loop]. rewrite (accordion_item_not_h3 e He), He.
  destruct H as [-> | (h4 & -> & R & C)]; [reflexivity |].
  rewrite R. cbn [negb]. unfold block_semester. now rewrite C.
Qed.

Lemma X9_malformed_block_raises_witness :
  year_loop (lit "2024")
    ([Tag (lit "p") None [Page.text "Key dates"]]
     ++ Tag (lit "div") (Some [lit "uq-accordion__item"])
          [Tag (lit "ul") None [Page.item "26 Feb" "Classes start"]]
     :: [Page.block "Semester 2" []])
  = Raise AttributeError.
Proof.
  apply (X9_malformed_block_raises (lit "2024")
           [Tag (lit "p") None [Page.text "Key dates"]]
           [Page.block "Semester 2" []]
           (Tag (lit "div") (Some [lit "uq-accordion__item"])
              [Tag (lit "ul") None [Page.item "26 Feb" "Classes start"]]));
    [reflexivity | reflexivity | left; reflexivity].
Defined.

(** X10.  The semesters of a document are those of its parts, in order: cut
    where a year heading begins (or at the end), the scan of the whole is the
    scan of the front followed by the scan of the rest, and an exception of
    the front comes first. *)
Theorem X10_year_sections_compose (front after : list node) :
  section_end after = true ->
  years_loop (front ++ after)
  = (s1 <- years_loop front ;; s2 <- years_loop after ;; Ok (s1 ++ s2)).
Proof.
  intros Ha. induction front as [|x front IH]; cbn [app years_loop].
  - cbn [bind]. destruct (years_loop after); reflexivity.
  - destruct (has_name (lit "h3") x); [| exact IH].
    rewrite (year_loop_section_end _ front after Ha), IH.
    destruct (year_loop (get_text x) front); simpl; [| reflexivity].
    destruct (years_loop front); simpl; [| reflexivity].
    destruct (years_loop after); simpl; [| reflexivity].
    now rewrite app_assoc.
Qed.

Lemma X10_year_sections_compose_witness :
  years_loop
    ([Page.heading "2024";
      Page.block "Semester 1" [Page.item "26 Feb" "Classes start"]]
     ++ [Page.heading "2025";
         Page.block "Semester 1" [Page.item "24 Feb" "Classes start"]])
  = (s1 <- years_loop
             [Page.heading "2024";
              Page.block "Semester 1" [Page.item "26 Feb" "Classes start"]] ;;
     s2 <- years_loop
             [Page.heading "2025";
              Page.block "Semester 1" [Page.item "24 Feb" "Classes start"]] ;;
     Ok (s1 ++ s2)).
Proof.
  apply (X10_year_sections_compose
           [Page.heading "2024";
            Page.block "Semester 1" [Page.item "26 Feb" "Classes start"]]
           [Page.heading "2025";
            Page.block "Semester 1" [Page.item "24 Feb" "Classes start"]]).
  reflexivity.
Defined.

Lemma split_first_token (token rest : str) :
  forallb (fun c => negb (c =? 226)%N) token = true ->
  split_first DATE_SEPARATOR (token ++ DATE_SEPARATOR ++ rest) = token.
Proof.
  induction token as [|c token IH]; [reflexivity |].
  cbn [forallb]. rewrite andb_true_iff, negb_true_iff. intros [Hc Ht].
  cbn [app split_first]. unfold DATE_SEPARATOR at 1. cbn [startswith].
  rewrite N.eqb_sym, Hc. cbn [andb]. now rewrite IH.
Qed.

(** X11.  The date of a line is read from what stands before the separator
    alone: two lines with the same text before it give the same date, or both
    fail, whatever follows the separator. *)
Theorem X11_text_after_separator_is_not_read
    (year_text token rest rest' : str) :
  forallb (fun c => negb (c =? 226)%N) token = true ->
  get_date year_text (token ++ DATE_SEPARATOR ++ rest)
  = get_date year_text (token ++ DATE_SEPARATOR ++ rest').
Proof.
  intros H. unfold get_date. now rewrite !split_first_token.
Qed.

Lemma X11_text_after_separator_is_not_read_witness :
  get_date (lit "2024")
    (lit "26 Feb " ++ DATE_SEPARATOR ++ lit " Classes start")
  = get_date (lit "2024")
      (lit "26 Feb " ++ DATE_SEPARATOR ++ lit " Semester 1 ends, 1 Jun").
Proof.
  apply (X11_text_after_separator_is_not_read (lit "2024") (lit "26 Feb ")).
  reflexivity.
Defined.

(** ** More on the week resolver *)

Lemma resolve_same_lookup (l1 l2 : list Semester) (years : list Z)
    (d : datetime) :
  get_semester_week l1 d = get_semester_week l2 d ->
  resolve l1 years d = resolve l2 years d.
Proof. unfold resolve. now intros ->. Qed.

(** X12.  A record with an absent date breaks the lookup when the loop
    reaches it: without start date it raises [TypeError]; with a start date
    and no end date it raises [TypeError] for every date from the start on,
    and is passed without a word for the dates before the start. *)
Theorem X12_absent_date_raises_TypeError
    (pre rest : list Semester) (s : Semester) (years : list Z)
    (d : datetime) :
  forallb has_dates pre = true ->
  forallb (fun x => negb (contains_date d x)) pre = true ->
  (start_date s = None ->
   resolve (pre ++ s :: rest) years d = Raise TypeError)
  /\ (forall a, start_date s = Some a -> end_date s = None ->
      resolve (pre ++ s :: rest) years d
      = if le a d then Raise TypeError else resolve rest years d).
Proof.
  intros Hd Hn. split.
  - intros Hs. unfold resolve. rewrite get_semester_week_skip by assumption.
    cbn [get_semester_week]. now rewrite Hs.
  - intros a Ha Hb. destruct (le a d) eqn:L.
    + unfold resolve. rewrite get_semester_week_skip by assumption.
      cbn [get_semester_week]. now rewrite Ha, L, Hb.
    + apply resolve_same_lookup.
      rewrite get_semester_week_skip by assumption.
      cbn [get_semester_week]. now rewrite Ha, L.
Qed.

Lemma X12_absent_date_raises_TypeError_witness :
  (start_date (mk_Semester SEMESTER_2 (Some (Page.brisbane 2024 7 22)) None)
   = None ->
   resolve ([Sample.semester_1_2024]
            ++ mk_Semester SEMESTER_2 (Some (Page.brisbane 2024 7 22)) None
            :: []) [2024] (Page.brisbane 2024 8 1)
   = Raise TypeError)
  /\ (forall a,
         start_date
           (mk_Semester SEMESTER_2 (Some (Page.brisbane 2024 7 22)) None)
         = Some a ->
         end_date
           (mk_Semester SEMESTER_2 (Some (Page.brisbane 2024 7 22)) None)
         = None ->
         resolve ([Sample.semester_1_2024]
                  ++ mk_Semester SEMESTER_2 (Some (Page.brisbane 2024 7 22))
                       None
                  :: []) [2024] (Page.brisbane 2024 8 1)
         = if le a (Page.brisbane 2024 8 1) then Raise TypeError
           else resolve [] [2024] (Page.brisbane 2024 8 1)).
Proof.
  apply (X12_absent_date_raises_TypeError [Sample.semester_1_2024] []
           (mk_Semester SEMESTER_2 (Some (Page.brisbane 2024 7 22)) None)
           [2024] (Page.brisbane 2024 8 1)); reflexivity.
Defined.

Lemma whole_days_mono (a d1 d2 : datetime) :
  total_us (wall d1) <= total_us (wall d2) ->
  whole_days a d1 <= whole_days a d2.
Proof.
  intros H. unfold whole_days. apply Z.div_le_mono; lia.
Qed.

Lemma valid_semester_dates (s : Semester) (a b : datetime) :
  valid_semester s = true -> start_date s = Some a -> end_date s = Some b ->
  valid a = true /\ valid b = true.
Proof.
  unfold valid_semester. intros H Ha Hb. rewrite Ha, Hb in H.
  now apply andb_true_iff in H.
Qed.

(** X13.  The week index is at most the number of weeks of the semester:
    when [resolve] answers [Found], for dates of the calendar, the week index
    lies between 1 and the whole days from the start to the end of the
    semester, divided by 7, plus 1. *)
Theorem X13_week_index_within_the_semester
    (semesters : list Semester) (years : list Z) (d : datetime)
    (n : str) (w : Z) (wd : str) :
  valid d = true -> forallb valid_semester semesters = true ->
  resolve semesters years d = Ok (Found n w wd) ->
  exists s a b,
    In s semesters /\ name s = n
    /\ start_date s = Some a /\ end_date s = Some b
    /\ 1 <= w <= whole_days a b / 7 + 1.
Proof.
  intros Vd Vs H. apply resolve_found_inv in H.
  destruct (get_semester_week_some d semesters _ H)
    as (s & a & Hin & Ea & Hc & Hr).
  destruct (contains_date_dates d s Hc) as (a' & b & Ea' & Eb & L1 & L2).
  assert (a' = a) by congruence. subst a'.
  rewrite forallb_forall in Vs.
  destruct (valid_semester_dates s a b (Vs s Hin) Ea Eb) as [Va Vb].
  exists s, a, b. unfold found_in in Hr. injection Hr as -> -> _.
  repeat split; auto.
  - pose proof (whole_days_nonneg a d Va Vd L1).
    assert (0 <= whole_days a d / 7) by (apply Z.div_pos; lia). lia.
  - pose proof (whole_days_mono a d b (le_total_us d b Vd Vb L2)).
    assert (whole_days a d / 7 <= whole_days a b / 7)
      by (apply Z.div_le_mono; lia).
    lia.
Qed.

Lemma X13_week_index_within_the_semester_witness :
  exists s a b,
    In s Sample.overlapping /\ name s = SEMESTER_1
    /\ start_date s = Some a /\ end_date s = Some b
    /\ 1 <= 14 <= whole_days a b / 7 + 1.
Proof.
  apply (X13_week_index_within_the_semester Sample.overlapping [2024]
           (Page.brisbane 2024 5 28) SEMESTER_1 14 (lit "Tuesday"));
    reflexivity.
Defined.

Lemma resolve_in_first (pre rest : list Semester) (s : Semester)
    (years : list Z) (d a : datetime) :
  forallb has_dates pre = true ->
  forallb (fun x => negb (contains_date d x)) pre = true ->
  start_date s = Some a -> contains_date d s = true ->
  resolve (pre ++ s :: rest) years d
  = Ok (Found (name s) (whole_days a d / 7 + 1) (strftime_A d)).
Proof.
  intros Hd Hn Ha Hc. apply resolve_found.
  rewrite get_semester_week_skip by assumption.
  now apply get_semester_week_hit.
Qed.

(** X14.  Within a semester the week index does not go down with the date:
    of two dates of the calendar that the same semester answers for, the
    later has the greater or equal week index. *)
Theorem X14_week_index_grows_with_the_date
    (pre rest : list Semester) (s : Semester) (years : list Z)
    (d1 d2 : datetime) :
  forallb has_dates pre = true ->
  forallb (fun x => negb (contains_date d1 x)) pre = true ->
  forallb (fun x => negb (contains_date d2 x)) pre = true ->
  contains_date d1 s = true -> contains_date d2 s = true ->
  valid d1 = true -> valid d2 = true -> le d1 d2 = true ->
  exists w1 w2 wd1 wd2,
    resolve (pre ++ s :: rest) years d1 = Ok (Found (name s) w1 wd1)
    /\ resolve (pre ++ s :: rest) years d2 = Ok (Found (name s) w2 wd2)
    /\ w1 <= w2.
Proof.
  intros Hd N1 N2 C1 C2 V1 V2 L.
  destruct (contains_date_dates d1 s C1) as (a & b & Ea & _ & _ & _).
  exists (whole_days a d1 / 7 + 1), (whole_days a d2 / 7 + 1),
         (strftime_A d1), (strftime_A d2).
  split; [now apply resolve_in_first |].
  split; [now apply resolve_in_first |].
  pose proof (whole_days_mono a d1 d2 (le_total_us d1 d2 V1 V2 L)).
  assert (whole_days a d1 / 7 <= whole_days a d2 / 7)
    by (apply Z.div_le_mono; lia).
  lia.
Qed.

Lemma X14_week_index_grows_with_the_date_witness :
  exists w1 w2 wd1 wd2,
    resolve ([Sample.semester_1_2024] ++ Sample.semester_2_2024 :: [])
            [2024] (Page.brisbane 2024 7 25)
    = Ok (Found SEMESTER_2 w1 wd1)
    /\ resolve ([Sample.semester_1_2024] ++ Sample.semester_2_2024 :: [])
               [2024] (Page.brisbane 2024 9 2)
       = Ok (Found SEMESTER_2 w2 wd2)
    /\ w1 <= w2.
Proof.
  apply (X14_week_index_grows_with_the_date [Sample.semester_1_2024] []
           Sample.semester_2_2024 [2024]
           (Page.brisbane 2024 7 25) (Page.brisbane 2024 9 2));
    reflexivity.
Defined.

Lemma valid_bounds (d : datetime) :
  valid d = true ->
  0 <= seconds_of_day (wall d) < 86400 /\ 0 <= microsecond (wall d) < 1000000.
Proof.
  unfold valid, valid_naive. rewrite andb_true_iff. intros [_ V].
  apply valid_time_bounds in V. unfold seconds_of_day. lia.
Qed.

(** X15.  Seven days later it is the next week and the same weekday: of two
    dates of the calendar exactly seven days apart that the same semester
    answers for, the later has the week index of the earlier plus 1, with the
    same weekday name. *)
Theorem X15_a_week_later
    (pre rest : list Semester) (s : Semester) (years : list Z)
    (d1 d2 : datetime) :
  forallb has_dates pre = true ->
  forallb (fun x => negb (contains_date d1 x)) pre = true ->
  forallb (fun x => negb (contains_date d2 x)) pre = true ->
  contains_date d1 s = true -> contains_date d2 s = true ->
  valid d1 = true -> valid d2 = true ->
  total_us (wall d2) = total_us (wall d1) + 7 * 86400000000 ->
  exists w wd,
    resolve (pre ++ s :: rest) years d1 = Ok (Found (name s) w wd)
    /\ resolve (pre ++ s :: rest) years d2 = Ok (Found (name s) (w + 1) wd).
Proof.
  intros Hd N1 N2 C1 C2 V1 V2 T.
  destruct (contains_date_dates d1 s C1) as (a & b & Ea & _ & _ & _).
  exists (whole_days a d1 / 7 + 1), (strftime_A d1).
  split; [now apply resolve_in_first |].
  rewrite (resolve_in_first pre rest s years d2 a) by assumption.
  assert (W : whole_days a d2 = whole_days a d1 + 7).
  { unfold whole_days. rewrite T.
    replace (total_us (wall d1) + 7 * 86400000000 - total_us (wall a))
      with (total_us (wall d1) - total_us (wall a) + 7 * 86400000000)
      by ring.
    now rewrite Z.div_add by lia. }
  assert (O : toordinal (wall d2) = toordinal (wall d1) + 7).
  { pose proof (valid_bounds d1 V1). pose proof (valid_bounds d2 V2).
    unfold total_us in T. lia. }
  assert (D : strftime_A d2 = strftime_A d1).
  { unfold strftime_A, weekday. rewrite O.
    replace (toordinal (wall d1) + 7 + 6)
      with (toordinal (wall d1) + 6 + 1 * 7) by ring.
    now rewrite Z.mod_add by lia. }
  rewrite W, D.
  replace (whole_days a d1 + 7) with (whole_days a d1 + 1 * 7) by ring.
  now rewrite Z.div_add by lia.
Qed.

Lemma X15_a_week_later_witness :
  exists w wd,
    resolve ([Sample.semester_1_2024] ++ Sample.semester_2_2024 :: [])
            [2024] (Page.brisbane 2024 7 29)
    = Ok (Found SEMESTER_2 w wd)
    /\ resolve ([Sample.semester_1_2024] ++ Sample.semester_2_2024 :: [])
               [2024] (Page.brisbane 2024 8 5)
       = Ok (Found SEMESTER_2 (w + 1) wd).
Proof.
  apply (X15_a_week_later [Sample.semester_1_2024] []
           Sample.semester_2_2024 [2024]
           (Page.brisbane 2024 7 29) (Page.brisbane 2024 8 5));
    reflexivity.
Defined.

Lemma after_midnight_not_le (d b : datetime) :
  at_midnight b = true -> same_day d b = true ->
  valid d = true -> at_midnight d = false ->
  le d b = false.
Proof.
  destruct d as [[y1 m1 d1 h1 i1 s1 u1] tz1], b as [[y2 m2 d2 h2 i2 s2 u2] tz2].
  unfold at_midnight, same_day, valid, valid_naive, le; simpl.
  rewrite !andb_true_iff, !Z.eqb_eq.
  intros [[[-> ->] ->] ->] [[-> ->] ->] [_ V] M.
  apply valid_time_bounds in V.
  rewrite !Z.ltb_irrefl, !Z.eqb_refl. simpl.
  destruct (Z.eqb_spec h1 0), (Z.eqb_spec i1 0), (Z.eqb_spec s1 0),
    (Z.eqb_spec u1 0); simpl in M; try discriminate;
    repeat match goal with
      | |- context [?x <? 0] => destruct (Z.ltb_spec x 0); [lia |]
      | |- context [?x =? 0] =>
          destruct (Z.eqb_spec x 0); [try contradiction |]
      end; simpl; try reflexivity; try lia.
Qed.

(** X16.  The last day of a semester counts at midnight only: when the end
    date is a midnight, a date of the calendar on that same day with any time
    after midnight is outside the semester, and the lookup goes on with the
    semesters that follow. *)
Theorem X16_last_day_ends_at_midnight
    (s : Semester) (rest : list Semester) (years : list Z)
    (d a b : datetime) :
  start_date s = Some a -> end_date s = Some b ->
  at_midnight b = true -> same_day d b = true ->
  valid d = true -> at_midnight d = false ->
  resolve (s :: rest) years d = resolve rest years d.
Proof.
  intros Ha Hb Mb Sd Vd Md. apply resolve_same_lookup.
  cbn [get_semester_week]. rewrite Ha, Hb.
  rewrite (after_midnight_not_le d b Mb Sd Vd Md).
  now destruct (le a d).
Qed.

Lemma X16_last_day_ends_at_midnight_witness :
  resolve (Sample.semester_1_2024 :: []) [2024]
    (mk_datetime (mk_naive 2024 6 2 9 30 0 0) Australia_Brisbane)
  = resolve [] [2024]
      (mk_datetime (mk_naive 2024 6 2 9 30 0 0) Australia_Brisbane).
Proof.
  apply (X16_last_day_ends_at_midnight Sample.semester_1_2024 [] [2024]
           (mk_datetime (mk_naive 2024 6 2 9 30 0 0) Australia_Brisbane)
           (Page.brisbane 2024 2 26) (Page.brisbane 2024 6 2));
    reflexivity.
Defined.

Lemma weekday_name_listed (d : datetime) :
  In (strftime_A d) (map lit DAY_NAMES).
Proof.
  unfold strftime_A. apply in_map. apply nth_In.
  assert (0 <= weekday d < 7) by (unfold weekday; apply Z.mod_pos_bound; lia).
  change (List.length DAY_NAMES) with 7%nat. lia.
Qed.

(** X17.  What the parser returns, the resolver can use: for the semesters
    of any page and a date of the calendar, an answer [Found] names
    "Semester 1" or "Semester 2", a week index of at least 1, and one of the
    seven English weekday names. *)
Theorem X17_answer_for_a_parsed_page
    (soup : node) (sems : list Semester) (years : list Z) (d : datetime)
    (n : str) (w : Z) (wd : str) :
  get_semester_times soup = Ok sems ->
  valid d = true ->
  resolve sems years d = Ok (Found n w wd) ->
  (n = SEMESTER_1 \/ n = SEMESTER_2)
  /\ 1 <= w
  /\ In wd (map lit DAY_NAMES).
Proof.
  intros Hp Vd H. unfold get_semester_times in Hp.
  apply (years_loop_dates (fun x => valid x = true)) in Hp.
  2:{ intros yt text x Hx. apply get_date_ok in Hx as (y & m & dd & V & ->).
      now apply valid_midnight. }
  apply resolve_found_inv in H.
  destruct (get_semester_week_some d sems _ H)
    as (s & a & Hin & Ea & Hc & Hr).
  destruct (contains_date_dates d s Hc) as (a' & b & Ea' & _ & L1 & _).
  assert (a' = a) by congruence. subst a'.
  rewrite Forall_forall in Hp. destruct (Hp s Hin) as [Hd R].
  rewrite semester_dates_all in Hd. destruct Hd as [Va _].
  unfold found_in in Hr. injection Hr as -> -> ->.
  split; [now apply recognised_names |].
  split; [| apply weekday_name_listed].
  pose proof (whole_days_nonneg a d (Va a Ea) Vd L1).
  assert (0 <= whole_days a d / 7) by (apply Z.div_pos; lia). lia.
Qed.

Lemma X17_answer_for_a_parsed_page_witness :
  (SEMESTER_2 = SEMESTER_1 \/ SEMESTER_2 = SEMESTER_2)
  /\ 1 <= 4
  /\ In (lit "Thursday") (map lit DAY_NAMES).
Proof.
  apply (X17_answer_for_a_parsed_page Page.calendar_2024
           [mk_Semester SEMESTER_1 (Some (Page.brisbane 2024 2 26))
                                   (Some (Page.brisbane 2024 6 22));
            mk_Semester SEMESTER_2 (Some (Page.brisbane 2024 7 22))
                                   (Some (Page.brisbane 2024 11 16));
            mk_Semester SEMESTER_1 (Some (Page.brisbane 2025 2 24))
                                   (Some (Page.brisbane 2025 6 21))]
           [2024; 2025] (Page.brisbane 2024 8 15)).
  - vm_compute. reflexivity.
  - reflexivity.
  - reflexivity.
Defined.

(** ** The command *)

Lemma not_found_message_head (r : Reason) (d : datetime) :
  exists c rest,
    not_found_message r d = c :: rest /\ (c = 85%N \/ c = 83%N)
    /\ (c = 83%N -> exists rest', rest = 111%N :: rest').
Proof.
  destruct r; unfold not_found_message; cbn [lit app]; simpl;
    eexists; eexists; (split; [reflexivity |]); split; auto.
  - intros H. discriminate.
  - intros _. eexists. reflexivity.
Qed.

Lemma format_reply_not_not_found (r : Reason) (d : datetime) :
  not_found_message r d <> format_reply.
Proof.
  destruct (not_found_message_head r d) as (c & rest & E & Hc & Ho).
  rewrite E. unfold format_reply. simpl. intros H. injection H as H1 H2.
  destruct Hc as [-> | ->]; [discriminate |].
  destruct (Ho eq_refl) as [rest' ->]. discriminate.
Qed.

Lemma format_reply_not_found_message
    (given opening n : str) (w : Z) (wd : str) :
  found_message given opening n w wd <> format_reply.
Proof. unfold found_message, format_reply. simpl. discriminate. Qed.

Lemma found_message_not_not_found
    (given opening n : str) (w : Z) (wd : str) (r : Reason) (d : datetime) :
  not_found_message r d <> found_message given opening n w wd.
Proof.
  destruct (not_found_message_head r d) as (c & rest & E & Hc & _).
  rewrite E. unfold found_message. simpl. intros H. injection H as H1 _.
  destruct Hc; subst; discriminate.
Qed.

(** The outcome once the date to check is known. *)
Lemma whatweekisit_checked
    (int : str -> result Z) (choice : list str -> str)
    (date : option str) (now check_date : datetime) (page : node) :
  match date with
  | None => Ok now
  | Some s => string_to_date s
  end = Ok check_date ->
  whatweekisit int choice date now page
  = attempt (get_semester_times page) (fun semesters =>
    attempt (get_semester_week semesters check_date) (fun semester_tuple =>
    match semester_tuple with
    | None =>
        attempt (year_numbers_of int (find_all (lit "h3") page))
          (fun year_numbers =>
        attempt (py_min year_numbers) (fun lo =>
        attempt (py_max year_numbers) (fun hi =>
        if (lo <=? year (wall check_date))
           && (year (wall check_date) <=? hi)
        then Reply (not_found_message OutOfSession check_date)
        else Reply (not_found_message OutOfRange check_date))))
    | Some (semester_name, week_index, weekday) =>
        match date with
        | Some given =>
            Reply (found_message given (choice OPENINGS) semester_name
                     week_index weekday)
        | None => Fails UnboundLocalError
        end
    end)).
Proof. unfold whatweekisit. now intros ->. Qed.

(** Every reply of the command, once the date to check is known, is one of
    the two replies that find nothing or a reply that names a week. *)
Lemma whatweekisit_replies
    (int : str -> result Z) (choice : list str -> str)
    (date : option str) (now check_date : datetime) (page : node)
    (content : str) :
  match date with
  | None => Ok now
  | Some s => string_to_date s
  end = Ok check_date ->
  whatweekisit int choice date now page = Reply content ->
  (exists r, content = not_found_message r check_date)
  \/ (exists given n w wd,
         date = Some given
         /\ content = found_message given (choice OPENINGS) n w wd).
Proof.
  intros Hc. rewrite (whatweekisit_checked _ _ _ _ _ _ Hc).
  unfold attempt.
  destruct (get_semester_times page) as [sems|]; [| discriminate].
  destruct (get_semester_week sems check_date) as [[[[n w] wd]|]|];
    [| | discriminate].
  - destruct date as [given|]; [| discriminate].
    intros H. injection H as <-. right. now exists given, n, w, wd.
  - destruct (year_numbers_of _ _) as [ys|]; [| discriminate].
    destruct (py_min ys); [| discriminate].
    destruct (py_max ys); [| discriminate].
    destruct (_ && _); intros H; left;
      [exists OutOfSession | exists OutOfRange];
      injection H as <-; reflexivity.
Qed.

(** X18.  The command answers with the reminder of the date format exactly
    when a date was given and [string_to_date] refuses it; the calendar page
    and the clock play no part in that. *)
Theorem X18_format_reply_iff_date_refused
    (int : str -> result Z) (choice : list str -> str)
    (date : option str) (now : datetime) (page : node) :
  whatweekisit int choice date now page = Reply format_reply
  <-> exists given, date = Some given
                    /\ string_to_date given = Raise ValueError.
Proof.
  split.
  - destruct (match date with
              | None => Ok now
              | Some s => string_to_date s
              end) as [cd|e] eqn:E.
    + intros H.
      destruct (whatweekisit_replies _ _ _ _ _ _ _ E H)
        as [[r Hr] | (g & n & w & wd & _ & Hf)]; exfalso.
      * now apply (format_reply_not_not_found r cd).
      * now apply (format_reply_not_found_message g (choice OPENINGS) n w wd).
    + destruct date as [given|]; [| discriminate].
      intros _. exists given. split; [reflexivity |].
      now rewrite E, (string_to_date_raises _ _ E).
  - intros [given [-> E]]. unfold whatweekisit. now rewrite E.
Qed.

(** X19.  Without a date argument the command cannot name the week: when
    the clock falls in a semester of the page, it ends with
    [UnboundLocalError] instead of a reply. *)
Theorem X19_no_date_in_semester_fails
    (int : str -> result Z) (choice : list str -> str)
    (now : datetime) (page : node) (sems : list Semester) (s : Semester) :
  get_semester_times page = Ok sems ->
  forallb has_dates sems = true ->
  In s sems -> contains_date now s = true ->
  whatweekisit int choice None now page = Fails UnboundLocalError.
Proof.
  intros Hp Hd Hin Hc.
  rewrite (whatweekisit_checked int choice None now now page eq_refl).
  rewrite Hp. cbn [attempt].
  destruct (first_containing now sems s Hin Hc)
    as (pre & s1 & post & -> & Hpre & H1 & _).
  destruct (contains_date_dates now s1 H1) as (a1 & b1 & Ea & _ & _ & _).
  rewrite forallb_app, andb_true_iff in Hd. destruct Hd as [Hd _].
  rewrite get_semester_week_skip by assumption.
  rewrite (get_semester_week_hit now s1 post a1 Ea H1). reflexivity.
Qed.

Lemma X19_no_date_in_semester_fails_witness :
  whatweekisit int_ascii (choice_nth 0) None (Page.brisbane 2024 8 15)
    (Page.document
       [Page.heading "2024";
        Page.block "Semester 2"
          [Page.item "22 Jul" "Classes start";
           Page.item "16 Nov" "Semester 2 ends"]])
  = Fails UnboundLocalError.
Proof.
  apply (X19_no_date_in_semester_fails int_ascii (choice_nth 0)
           (Page.brisbane 2024 8 15)
           (Page.document
              [Page.heading "2024";
               Page.block "Semester 2"
                 [Page.item "22 Jul" "Classes start";
                  Page.item "16 Nov" "Semester 2 ends"]])
           [Sample.semester_2_2024] Sample.semester_2_2024).
  - vm_compute. reflexivity.
  - reflexivity.
  - left. reflexivity.
  - reflexivity.
Defined.

(** X20.  Without a date argument every reply of the command is one of the
    two replies that find nothing, written for the clock's date; it never
    names a week. *)
Theorem X20_no_date_never_names_a_week
    (int : str -> result Z) (choice : list str -> str)
    (now : datetime) (page : node) (content : str) :
  whatweekisit int choice None now page = Reply content ->
  (content = not_found_message OutOfSession now
   \/ content = not_found_message OutOfRange now)
  /\ ~ names_a_week content.
Proof.
  intros H.
  destruct (whatweekisit_replies int choice None now now page content
              eq_refl H) as [[r ->] | (g & n & w & wd & E & _)];
    [| discriminate].
  split.
  - destruct r; auto.
  - intros (g & o & n & w & wd & E).
    now apply (found_message_not_not_found g o n w wd r now).
Qed.

Lemma X20_no_date_never_names_a_week_witness :
  (not_found_message OutOfSession (Page.brisbane 2024 7 1)
   = not_found_message OutOfSession (Page.brisbane 2024 7 1)
   \/ not_found_message OutOfSession (Page.brisbane 2024 7 1)
      = not_found_message OutOfRange (Page.brisbane 2024 7 1))
  /\ ~ names_a_week (not_found_message OutOfSession (Page.brisbane 2024 7 1)).
Proof.
  apply (X20_no_date_never_names_a_week int_ascii (choice_nth 0)
           (Page.brisbane 2024 7 1) Page.calendar_2024).
  vm_compute. reflexivity.
Defined.

(** X21.  With a date that [string_to_date] accepts, on a page that parses
    and whose year headings are numbers, the command says what [resolve]
    finds: the week of the semester under the date as it was typed, one of
    the two replies that find nothing for the date written afresh, or the
    exception of the lookup. *)
Theorem X21_command_reports_resolve
    (int : str -> result Z) (choice : list str -> str)
    (given : str) (now d : datetime) (page : node)
    (sems : list Semester) (ys : list Z) :
  string_to_date given = Ok d ->
  get_semester_times page = Ok sems ->
  year_numbers_of int (find_all (lit "h3") page) = Ok ys ->
  whatweekisit int choice (Some given) now page
  = match resolve sems ys d with
    | Ok (Found n w wd) => Reply (found_message given (choice OPENINGS) n w wd)
    | Ok (NotFound r) => Reply (not_found_message r d)
    | Raise e => Fails (Uncaught e)
    end.
Proof.
  intros Hd Hp Hy.
  rewrite (whatweekisit_checked int choice (Some given) now d page Hd).
  rewrite Hp. unfold resolve, attempt.
  destruct (get_semester_week sems d) as [[[[n w] wd]|]|]; simpl;
    [reflexivity | | reflexivity].
  rewrite Hy.
  destruct (py_min ys); simpl; [| reflexivity].
  destruct (py_max ys); simpl; [| reflexivity].
  now destruct (_ && _).
Qed.

Lemma X21_command_reports_resolve_witness :
  whatweekisit int_ascii (choice_nth 8) (Some (lit "4/3/2024"))
    (Page.brisbane 2024 1 1) Page.reversed
  = match resolve
            [mk_Semester SEMESTER_1 (Some (Page.brisbane 2024 6 10))
                                    (Some (Page.brisbane 2024 2 1))]
            [2024] (Page.brisbane 2024 3 4) with
    | Ok (Found n w wd) =>
        Reply (found_message (lit "4/3/2024") (choice_nth 8 OPENINGS) n w wd)
    | Ok (NotFound r) => Reply (not_found_message r (Page.brisbane 2024 3 4))
    | Raise e => Fails (Uncaught e)
    end.
Proof.
  apply (X21_command_reports_resolve int_ascii (choice_nth 8)
           (lit "4/3/2024") (Page.brisbane 2024 1 1)
           (Page.brisbane 2024 3 4) Page.reversed); reflexivity.
Defined.

(** X22.  On a page without year heading the command has nothing to compare
    the year with: for the clock's date, or any date [string_to_date]
    accepts, it ends with the [ValueError] of [min] on an empty list. *)
Theorem X22_no_year_heading_fails
    (int : str -> result Z) (choice : list str -> str)
    (date : option str) (now check_date : datetime) (page : node) :
  find_all (lit "h3") page = [] ->
  match date with
  | None => Ok now
  | Some s => string_to_date s
  end = Ok check_date ->
  whatweekisit int choice date now page = Fails (Uncaught ValueError).
Proof.
  intros Hh Hc. rewrite (whatweekisit_checked _ _ _ _ _ _ Hc).
  assert (Hp : get_semester_times page = Ok []).
  { unfold find_all in Hh. apply filter_nil_forallb in Hh.
    unfold get_semester_times.
    rewrite <- (app_nil_r (descendants page)).
    now rewrite years_loop_no_h3. }
  rewrite Hp, Hh. reflexivity.
Qed.

Lemma X22_no_year_heading_fails_witness :
  whatweekisit int_ascii (choice_nth 0) (Some (lit "4/3/2024"))
    (Page.brisbane 2024 1 1)
    (Page.document
       [Page.block "Semester 1" [Page.item "26 Feb" "Classes start"]])
  = Fails (Uncaught ValueError).
Proof.
  apply (X22_no_year_heading_fails int_ascii (choice_nth 0)
           (Some (lit "4/3/2024")) (Page.brisbane 2024 1 1)
           (Page.brisbane 2024 3 4)
           (Page.document
              [Page.block "Semester 1" [Page.item "26 Feb" "Classes start"]]));
    reflexivity.
Defined.

(** ** White space around the date, and dates typed without zeros *)

Lemma isspace_not_separator (c : N) : isspace c = true -> (c =? 226)%N = false.
Proof.
  intros H. destruct (N.eqb_spec c 226); [| reflexivity].
  subst c. discriminate H.
Qed.

Lemma lstrip_spaces (l s : str) :
  forallb isspace l = true -> lstrip (l ++ s) = lstrip s.
Proof.
  induction l as [|c l IH]; simpl; [reflexivity |].
  rewrite andb_true_iff. intros [-> Hl]. now apply IH.
Qed.

Lemma lstrip_app_spaces (t r : str) :
  forallb isspace r = true ->
  lstrip (t ++ r) = lstrip t ++ r
  \/ (lstrip t = [] /\ lstrip (t ++ r) = []).
Proof.
  intros Hr. induction t as [|c t IH]; simpl.
  - right. split; [reflexivity |].
    rewrite <- (app_nil_r r). now rewrite lstrip_spaces.
  - destruct (isspace c); [exact IH | now left].
Qed.

Lemma forallb_rev {A} (f : A -> bool) (l : list A) :
  forallb f l = true -> forallb f (rev l) = true.
Proof.
  rewrite !forallb_forall. intros H x Hx. apply H. now apply in_rev.
Qed.

Lemma rstrip_spaces (s r : str) :
  forallb isspace r = true -> rstrip (s ++ r) = rstrip s.
Proof.
  intros Hr. unfold rstrip. rewrite rev_app_distr.
  now rewrite lstrip_spaces by now apply forallb_rev.
Qed.

Lemma strip_spaces_around (l t r : str) :
  forallb isspace l = true -> forallb isspace r = true ->
  strip (l ++ t ++ r) = strip t.
Proof.
  intros Hl Hr. unfold strip. rewrite lstrip_spaces by exact Hl.
  destruct (lstrip_app_spaces t r Hr) as [-> | [E ->]].
  - now apply rstrip_spaces.
  - now rewrite E.
Qed.

Lemma replace_nbsp_spaces (l : str) :
  forallb isspace l = true ->
  forallb isspace (replace_char NBSP SPACE l) = true.
Proof.
  induction l as [|c l IH]; simpl; [reflexivity |].
  rewrite !andb_true_iff. intros [Hc Hl]. split; [| now apply IH].
  destruct (c =? NBSP)%N; [reflexivity | exact Hc].
Qed.

(** X23.  White space and no-break spaces around the date do not count: a
    list item whose text before the separator is a date wrapped in white
    space gives the same date, or fails the same way, as the item with the
    bare date. *)
Theorem X23_spaces_around_the_date_are_dropped
    (year_text l token r rest : str) :
  forallb isspace l = true -> forallb isspace r = true ->
  forallb (fun c => negb (c =? 226)%N) token = true ->
  get_date year_text ((l ++ token ++ r) ++ DATE_SEPARATOR ++ rest)
  = get_date year_text (token ++ DATE_SEPARATOR ++ rest).
Proof.
  intros Hl Hr Ht. unfold get_date.
  assert (Hs : forall x, forallb isspace x = true ->
                         forallb (fun c => negb (c =? 226)%N) x = true).
  { intros x Hx. rewrite forallb_forall in *. intros c Hc.
    now rewrite (isspace_not_separator c (Hx c Hc)). }
  rewrite !split_first_token;
    [| exact Ht | rewrite !forallb_app, Ht, (Hs l Hl), (Hs r Hr); reflexivity].
  unfold replace_char. rewrite !map_app. fold (replace_char NBSP SPACE l).
  fold (replace_char NBSP SPACE token). fold (replace_char NBSP SPACE r).
  now rewrite strip_spaces_around by now apply replace_nbsp_spaces.
Qed.

Lemma X23_spaces_around_the_date_are_dropped_witness :
  get_date (lit "2024")
    (([NBSP; SPACE] ++ lit "26 Feb" ++ [NBSP])
     ++ DATE_SEPARATOR ++ lit " Classes start")
  = get_date (lit "2024")
      (lit "26 Feb" ++ DATE_SEPARATOR ++ lit " Classes start").
Proof.
  apply (X23_spaces_around_the_date_are_dropped (lit "2024")
           [NBSP; SPACE] (lit "26 Feb") [NBSP] (lit " Classes start"));
    reflexivity.
Defined.

Lemma first_match_day_unpadded (d : Z) (s : str) :
  1 <= d <= 31 ->
  first_match Re.re_d (unpadded d ++ 47%N :: s) d (47%N :: s).
Proof.
  intros H. apply day_cases in H. unfold first_match.
  repeat (destruct H as [H | H]); subst; eexists; reflexivity.
Qed.

Lemma first_match_month_unpadded (m : Z) (s : str) :
  1 <= m <= 12 ->
  first_match Re.re_m (unpadded m ++ 47%N :: s) m (47%N :: s).
Proof.
  intros H. apply month_cases in H. unfold first_match.
  repeat (destruct H as [H | H]); subst; eexists; reflexivity.
Qed.

(** X24.  The day and the month may be typed without leading zero:
    [string_to_date] reads a valid date written so as the same date. *)
Theorem X24_days_and_months_without_zero (y m d : Z) :
  valid_date y m d = true ->
  string_to_date (unpadded d ++ lit "/" ++ unpadded m ++ lit "/" ++ pad4 y)
  = Ok (mk_datetime (midnight y m d) Australia_Brisbane).
Proof.
  intros V. pose proof (valid_date_bounds _ _ _ V) as (Hy & Hm & Hd).
  pose proof (days_in_month_le_31 y m Hm) as H31.
  assert (F : first_match
                (Re.seq Re.re_d (fun d => Re.seq (Re.char 47) (fun _ =>
                 Re.seq Re.re_m (fun m => Re.seq (Re.char 47) (fun _ =>
                 Re.seq Re.re_Y (fun y => Re.ret (y, m, d)))))))
                (unpadded d ++ lit "/" ++ unpadded m ++ lit "/" ++ pad4 y)
                (y, m, d) []).
  { eapply first_match_seq; [apply first_match_day_unpadded; lia |].
    eapply first_match_seq; [apply first_match_char |].
    eapply first_match_seq; [apply first_match_month_unpadded; lia |].
    eapply first_match_seq; [apply first_match_char |].
    eapply first_match_seq; [apply first_match_year; lia |].
    apply first_match_ret. }
  destruct F as [more F]. unfold string_to_date, strptime_d_m_Y.
  rewrite F. simpl. now rewrite V.
Qed.

Lemma X24_days_and_months_without_zero_witness :
  string_to_date (unpadded 4 ++ lit "/" ++ unpadded 3 ++ lit "/" ++ pad4 2024)
  = Ok (mk_datetime (midnight 2024 3 4) Australia_Brisbane).
Proof.
  apply (X24_days_and_months_without_zero 2024 3 4). reflexivity.
Defined.

(** ** The date of the line that says when classes start *)










Example arabic_indic_digit_in_the_day :
  get_date (lit "2024")
    ([50; 1638]%N ++ lit " Feb " ++ DATE_SEPARATOR ++ lit " Classes start")
  = Ok (Page.brisbane 2024 2 26).
Proof. reflexivity. Qed.

(** ** Years below 1000 *)

Lemma char_inv (c : N) (s r : str) :
  In (tt, r) (Re.char c s) -> s = c :: r.
Proof.
  unfold Re.char. rewrite in_seq. intros (x & r1 & H1 & H2).
  apply sat_inv in H1 as [-> Hx]. apply N.eqb_eq in Hx. subst x.
  destruct H2 as [H2 | []]. now injection H2 as <-.
Qed.

Lemma consumes_re_m : consumes Re.re_m.
Proof.
  unfold Re.re_m.
  repeat first [ apply consumes_char | apply consumes_digit_in
               | apply consumes_ret | apply consumes_alt
               | apply consumes_seq
               | match goal with |- forall _, _ => intro end ].
Qed.

(** A text that ["%d/%m/%Y"] accepts ends with a slash and four decimal
    digits. *)
Lemma strptime_d_m_Y_end (s : str) (n : naive) :
  strptime_d_m_Y s = Ok n ->
  exists pre a b c e,
    s = pre ++ [47%N; a; b; c; e]
    /\ Re.decimal_value a <> None /\ Re.decimal_value b <> None
    /\ Re.decimal_value c <> None.
Proof.
  intros H. unfold strptime_d_m_Y in H.
  apply strptime_finish_ok in H as (y & m & d & more & E & _ & _).
  assert (I : In ((y, m, d), [])
                (Re.seq Re.re_d (fun d => Re.seq (Re.char 47) (fun _ =>
                 Re.seq Re.re_m (fun m => Re.seq (Re.char 47) (fun _ =>
                 Re.seq Re.re_Y (fun y => Re.ret (y, m, d)))))) s))
    by (rewrite E; now left).
  apply in_seq in I as (d1 & r1 & I1 & I).
  apply in_seq in I as ([] & r2 & I2 & I).
  apply in_seq in I as (m1 & r3 & I3 & I).
  apply in_seq in I as ([] & r4 & I4 & I).
  apply in_seq in I as (y1 & r5 & I5 & I).
  destruct I as [I | []]. injection I as -> -> -> ->.
  apply consumes_re_d in I1 as [p1 ->].
  apply char_inv in I2 as ->.
  apply consumes_re_m in I3 as [p3 ->].
  apply char_inv in I4 as ->.
  apply re_Y_inv
    in I5 as (a & b & c & e & va & vb & vc & ve & -> & Ha & Hb & Hc & _ & _).
  exists (p1 ++ 47%N :: p3), a, b, c, e.
  split; [| repeat split; congruence].
  rewrite <- app_assoc. reflexivity.
Qed.

(** X25.  A date before the year 1000 does not survive the round trip: its
    year is written with fewer than four digits, and [string_to_date] raises
    [ValueError] on the string. *)
Theorem X25_round_trip_fails_before_1000 (d : datetime) :
  valid d = true -> year (wall d) < 1000 ->
  string_to_date (date_to_string d) = Raise ValueError.
Proof.
  intros V Hy.
  destruct (string_to_date (date_to_string d)) as [d'|e] eqn:E;
    [exfalso | now rewrite (string_to_date_raises _ _ E)].
  unfold string_to_date in E.
  destruct (strptime_d_m_Y (date_to_string d)) as [n|] eqn:S;
    [clear E | discriminate].
  apply strptime_d_m_Y_end in S as (pre & a & b & c & e & S & Ha & Hb & Hc).
  unfold date_to_string, strftime_d_m_Y, year_digits, pad2 in S.
  cbn [app lit map list_ascii_of_string N_of_ascii] in S.
  change (N_of_ascii "/") with 47%N in S.
  set (D1 := digit_char (day (wall d) / 10)) in *.
  set (D2 := digit_char (day (wall d) mod 10)) in *.
  set (M1 := digit_char (month (wall d) / 10)) in *.
  set (M2 := digit_char (month (wall d) mod 10)) in *.
  destruct (year (wall d) <? 10).
  - apply (same_length_suffix [D1; D2] pre) in S; [| reflexivity].
    injection S as _ _ S _. subst c. now apply Hc.
  - destruct (year (wall d) <? 100).
    + apply (same_length_suffix [D1; D2; 47%N] pre) in S; [| reflexivity].
      injection S as _ _ S _ _. subst b. now apply Hb.
    + destruct (Z.ltb_spec (year (wall d)) 1000); [| lia].
      apply (same_length_suffix [D1; D2; 47%N; M1] pre) in S;
        [| reflexivity].
      injection S as _ S _ _ _. subst a. now apply Ha.
Qed.

Lemma X25_round_trip_fails_before_1000_witness :
  string_to_date
    (date_to_string (mk_datetime (midnight 476 9 4) Australia_Brisbane))
  = Raise ValueError.
Proof.
  apply (X25_round_trip_fails_before_1000
           (mk_datetime (midnight 476 9 4) Australia_Brisbane));
    [reflexivity | simpl; lia].
Defined.
